(** * Medical gas engineering service: demand, pipe sizing, compliance, cost

    Shallow embedding of the class [MedicalGasEngineering] and of the
    notification methods of [ClientPortalService], both of
    [src/services/medicalGasEngineering.ts].

    Conventions of the embedding.
    - A number a method receives from its caller (an outlet quantity, a
      flow rate, a length) is a finite number, an exact rational ([Q]).
    - A number the code computes is a [jsnum]: a rational, NaN or an
      infinity.  Arithmetic is exact on rationals and follows IEEE-754 on
      NaN and the infinities; rounding to doubles, overflow and the sign of
      zero are not represented.  Sums are stated with their terms in the
      order in which the code adds them.
    - An object literal used as a lookup table answers [table[key]] with its
      own property, with the member of [Object.prototype] of that name, or
      with [undefined] ([lookup]).
    - Where the source declares a union of string literals the embedding
      has an enumeration ([OutletGas.t], [Gas.t], [RedundancyLevel],
      [Status]); where it declares [string] the embedding has [string].
    - [Math.PI] is the rational value of the double the runtime uses.
    - [Math.log10] and [Math.pow] with a fractional exponent are parameters
      of the pipe-sizing code.
    - A template literal is kept as the list of its fragments ([text]);
      the decimal rendering of an interpolated number is not modelled.
    - A [Map<string, V>] is an association list in insertion order; [set]
      on an existing key updates the entry in place, as the runtime does. *)

From Stdlib Require Import QArith ZArith List String Bool Qround Qabs Lia Lqa.
Import ListNotations.
Open Scope string_scope.
Open Scope list_scope.
Open Scope Q_scope.

(** ** Runtime notions *)

Definition Map (V : Type) : Type := list (string * V).

Fixpoint Map_get {V : Type} (m : Map V) (k : string) : option V :=
  match m with
  | [] => None
  | (k', v) :: rest => if String.eqb k' k then Some v else Map_get rest k
  end.

Fixpoint Map_set {V : Type} (m : Map V) (k : string) (v : V) : Map V :=
  match m with
  | [] => [(k, v)]
  | (k', v') :: rest =>
      if String.eqb k' k then (k', v) :: rest else (k', v') :: Map_set rest k v
  end.

Definition Map_keys {V : Type} (m : Map V) : list string := map fst m.
Definition Map_values {V : Type} (m : Map V) : list V := map snd m.

(** *** Numbers *)

Inductive jsnum : Type :=
| Finite (q : Q)
| NaN
| Infinity
| NegInfinity.

Definition jneg (x : jsnum) : jsnum :=
  match x with
  | Finite q => Finite (- q)
  | NaN => NaN
  | Infinity => NegInfinity
  | NegInfinity => Infinity
  end.

(** An infinity times a rational: the sign of the rational decides, and
    zero gives NaN. *)
Definition scaled (inf : jsnum) (q : Q) : jsnum :=
  match q ?= 0 with
  | Gt => inf
  | Lt => jneg inf
  | Eq => NaN
  end.

Definition jadd (x y : jsnum) : jsnum :=
  match x, y with
  | Finite a, Finite b => Finite (a + b)
  | NaN, _ => NaN
  | _, NaN => NaN
  | Infinity, NegInfinity => NaN
  | NegInfinity, Infinity => NaN
  | Infinity, _ => Infinity
  | _, Infinity => Infinity
  | NegInfinity, _ => NegInfinity
  | _, NegInfinity => NegInfinity
  end.

Definition jsub (x y : jsnum) : jsnum := jadd x (jneg y).

Definition jmul (x y : jsnum) : jsnum :=
  match x, y with
  | Finite a, Finite b => Finite (a * b)
  | NaN, _ => NaN
  | _, NaN => NaN
  | Finite a, inf => scaled inf a
  | inf, Finite b => scaled inf b
  | Infinity, Infinity => Infinity
  | NegInfinity, NegInfinity => Infinity
  | _, _ => NegInfinity
  end.

Definition jdiv (x y : jsnum) : jsnum :=
  match x, y with
  | NaN, _ => NaN
  | _, NaN => NaN
  | Finite a, Finite b =>
      if Qeq_bool b 0 then scaled Infinity a else Finite (a / b)
  | Finite _, _ => Finite 0
  | inf, Finite b => match b ?= 0 with Lt => jneg inf | _ => inf end
  | _, _ => NaN
  end.

(** [a > b] and [a <= b]: false as soon as one side is NaN. *)
Definition gtb (x y : jsnum) : bool :=
  match x, y with
  | Finite a, Finite b => negb (Qle_bool a b)
  | NaN, _ => false
  | _, NaN => false
  | Infinity, Infinity => false
  | Infinity, _ => true
  | NegInfinity, _ => false
  | Finite _, NegInfinity => true
  | Finite _, Infinity => false
  end.

Definition leb (x y : jsnum) : bool :=
  match x, y with
  | Finite a, Finite b => Qle_bool a b
  | NaN, _ => false
  | _, NaN => false
  | NegInfinity, _ => true
  | _, Infinity => true
  | _, _ => false
  end.

Definition Math_abs (x : jsnum) : jsnum :=
  match x with
  | Finite q => Finite (Qabs q)
  | NaN => NaN
  | _ => Infinity
  end.

Definition Math_ceil (x : jsnum) : jsnum :=
  match x with
  | Finite q => Finite (inject_Z (Qceiling q))
  | other => other
  end.

(** [Math.round] rounds half up: floor (x + 1/2). *)
Definition Math_round (x : jsnum) : jsnum :=
  match x with
  | Finite q => Finite (inject_Z (Qfloor (q + 0.5)))
  | other => other
  end.

Definition Math_PI : Q := 884279719003555 # 281474976710656.

(** The order of numbers as propositions; neither holds when a side is
    NaN. *)
Definition jle (x y : jsnum) : Prop := leb x y = true.
Definition jlt (x y : jsnum) : Prop := gtb y x = true.

(** The same number: equal rationals, or the same special value. *)
Definition same (x y : jsnum) : Prop :=
  match x, y with
  | Finite a, Finite b => a == b
  | NaN, NaN => True
  | Infinity, Infinity => True
  | NegInfinity, NegInfinity => True
  | _, _ => False
  end.

(** *** Values and property access *)

(** What a slot declared [number] can hold at run time. *)
Inductive value : Type :=
| Number (n : jsnum)
| Member (name : string)
| Undefined.

(** The conversion every arithmetic operator applies to its operands: a
    function, an object and [undefined] all become NaN. *)
Definition ToNumber (v : value) : jsnum :=
  match v with
  | Number n => n
  | Member _ => NaN
  | Undefined => NaN
  end.

Definition truthy (v : value) : bool :=
  match v with
  | Number (Finite q) => negb (Qeq_bool q 0)
  | Number NaN => false
  | Number _ => true
  | Member _ => true
  | Undefined => false
  end.

(** The property names every object inherits from [Object.prototype]. *)
Definition objectPrototypeKeys : list string :=
  [ "constructor"; "__defineGetter__"; "__defineSetter__"; "hasOwnProperty";
    "__lookupGetter__"; "__lookupSetter__"; "isPrototypeOf";
    "propertyIsEnumerable"; "toString"; "valueOf"; "__proto__";
    "toLocaleString" ].

Definition isInherited (key : string) : bool :=
  existsb (String.eqb key) objectPrototypeKeys.

(** Result of [table[key]] on an object literal. *)
Inductive property (V : Type) : Type :=
| Own (v : V)
| Inherited (name : string)
| Missing.
Arguments Own {V} v.
Arguments Inherited {V} name.
Arguments Missing {V}.

Definition lookup {V : Type} (table : list (string * V)) (key : string) : property V :=
  match Map_get table key with
  | Some v => Own v
  | None => if isInherited key then Inherited key else Missing
  end.

(** [if (x)] on the result of a lookup: an inherited member is truthy. *)
Definition found {V : Type} (p : property V) : bool :=
  match p with
  | Missing => false
  | _ => true
  end.

(** [x.field] on the result of a lookup in a table of records of numbers:
    the members of [Object.prototype] have none of the fields read. *)
Definition field {V : Type} (f : V -> Q) (p : property V) : value :=
  match p with
  | Own v => Number (Finite (f v))
  | _ => Undefined
  end.

(** The result of a lookup in a table of numbers, as a value. *)
Definition entry (p : property Q) : value :=
  match p with
  | Own q => Number (Finite q)
  | Inherited name => Member name
  | Missing => Undefined
  end.

(** [v || d]. *)
Definition or_default (v : value) (d : Q) : value :=
  if truthy v then v else Number (Finite d).

(** Fragments of a template literal. *)
Inductive fragment : Type :=
| Lit (s : string)
| Num (v : value)
| Count (n : nat)
| Fixed (n : jsnum) (digits : nat).

Definition text : Type := list fragment.

(** Outcome of a call: the value returned or the error thrown. *)
Inductive completion (A : Type) : Type :=
| Returns (a : A)
| Throws (error : string).
Arguments Returns {A} a.
Arguments Throws {A} error.

(** ** Data model *)

(** The union [MedicalGasOutlet['type']]. *)
Module OutletGas.
Inductive t : Type := oxygen | air | vacuum | co2 | n2o | nitrogen | argon.

Definition name (g : t) : string :=
  match g with
  | oxygen => "oxygen"
  | air => "air"
  | vacuum => "vacuum"
  | co2 => "co2"
  | n2o => "n2o"
  | nitrogen => "nitrogen"
  | argon => "argon"
  end.
End OutletGas.

(** The union [MedicalGasSystem['gasType']]. *)
Module Gas.
Inductive t : Type := oxygen | air | vacuum | co2 | n2o.

Definition name (g : t) : string :=
  match g with
  | oxygen => "oxygen"
  | air => "air"
  | vacuum => "vacuum"
  | co2 => "co2"
  | n2o => "n2o"
  end.
End Gas.

Module Location.
Record t : Type := mk {
  room : string;
  wallLocation : string;
  heightFromFloor : Q
}.
End Location.

Module MedicalGasOutlet.
Record t : Type := mk {
  type : OutletGas.t;
  quantity : Q;
  flowRate : Q;
  pressure : Q;
  simultaneousFactor : Q;
  backupRequired : bool;
  location : Location.t
}.
End MedicalGasOutlet.

Inductive Pressurization : Type := positive | negative | neutral.

Module RoomGasRequirements.
Record t : Type := mk {
  roomId : string;
  roomName : string;
  roomType : string;
  area : Q;
  ceilingHeight : Q;
  outlets : list MedicalGasOutlet.t;
  pressurization : Pressurization;
  airChangesPerHour : Q;
  filtrationLevel : string;
  specialRequirements : list string
}.
End RoomGasRequirements.

Inductive RedundancyLevel : Type := single | dual | triple.

Module AlarmSetPoints.
Record t : Type := mk {
  highPressure : jsnum;
  lowPressure : jsnum;
  switchover : jsnum
}.
End AlarmSetPoints.

Module SystemPressureRequirements.
Record t : Type := mk {
  operatingPressure : jsnum;
  alarmSetPoints : AlarmSetPoints.t;
  backupCapacity : jsnum;
  redundancyLevel : RedundancyLevel
}.
End SystemPressureRequirements.

(** The diameter, length, velocity and flow rate of a pipe calculation are
    finite whenever the arguments of [calculatePipeSizing] are; the
    pressure drop need not be, and the roughness slot can hold a member of
    [Object.prototype]. *)
Module PipeCalculation.
Record t : Type := mk {
  diameter : Q;
  length : Q;
  material : string;
  pressureDrop : jsnum;
  velocity : Q;
  flowRate : Q;
  roughness : value
}.
End PipeCalculation.

Inductive Status : Type := compliant | non_compliant | warning.

Module ComplianceCheck.
Record t : Type := mk {
  standard : string;
  requirement : text;
  status : Status;
  notes : text
}.
End ComplianceCheck.

Module Distribution.
Record t : Type := mk {
  mainLines : list PipeCalculation.t;
  branchLines : list PipeCalculation.t;
  totalLength : jsnum;
  totalPressureDrop : jsnum
}.
End Distribution.

Module Equipment.
Record t : Type := mk {
  primarySupply : string;
  backupSupply : string;
  manifolds : jsnum;
  regulators : jsnum;
  alarms : list string
}.
End Equipment.

Module MedicalGasSystem.
Record t : Type := mk {
  gasType : Gas.t;
  totalDemand : jsnum;
  peakDemand : jsnum;
  systemPressure : SystemPressureRequirements.t;
  distribution : Distribution.t;
  equipment : Equipment.t;
  compliance : list ComplianceCheck.t;
  estimatedCost : jsnum
}.

(** Field assignments [system.f = v]. *)
Definition set_totalDemand (s : t) (v : jsnum) : t :=
  mk (gasType s) v (peakDemand s) (systemPressure s) (distribution s)
     (equipment s) (compliance s) (estimatedCost s).
Definition set_peakDemand (s : t) (v : jsnum) : t :=
  mk (gasType s) (totalDemand s) v (systemPressure s) (distribution s)
     (equipment s) (compliance s) (estimatedCost s).
Definition set_equipment (s : t) (v : Equipment.t) : t :=
  mk (gasType s) (totalDemand s) (peakDemand s) (systemPressure s)
     (distribution s) v (compliance s) (estimatedCost s).
Definition set_compliance (s : t) (v : list ComplianceCheck.t) : t :=
  mk (gasType s) (totalDemand s) (peakDemand s) (systemPressure s)
     (distribution s) (equipment s) v (estimatedCost s).
Definition set_estimatedCost (s : t) (v : jsnum) : t :=
  mk (gasType s) (totalDemand s) (peakDemand s) (systemPressure s)
     (distribution s) (equipment s) (compliance s) v.
End MedicalGasSystem.

(** ** Constant tables of the class *)

Module Standards.
Record t : Type := mk {
  operatingPressure : Q;
  lowPressureAlarm : Q;
  highPressureAlarm : Q;
  maxVelocity : Q;
  simultaneousFactor : Q
}.
End Standards.

Definition NFPA99_STANDARDS : list (string * Standards.t) :=
  [ ("oxygen", Standards.mk 50 45 55 25 0.75);
    ("air",    Standards.mk 50 45 55 25 0.75);
    ("vacuum", Standards.mk (-15) (-12) (-18) 5000 0.50);
    ("n2o",    Standards.mk 50 45 55 25 0.25);
    ("co2",    Standards.mk 50 45 55 25 0.25) ].

Definition PIPE_ROUGHNESS : list (string * Q) :=
  [ ("copper", 0.000005);
    ("stainless_steel", 0.000015);
    ("chrome_moly", 0.000045) ].

Definition FLOW_RATES : list (string * list (string * Q)) :=
  [ ("oxygen",
      [ ("Operating Room", 15); ("ICU", 8); ("Emergency Room", 12);
        ("Recovery Room", 6); ("Patient Room", 4); ("NICU", 10) ]);
    ("air",
      [ ("Operating Room", 12); ("ICU", 6); ("Emergency Room", 10);
        ("Recovery Room", 5); ("Patient Room", 3); ("NICU", 8) ]);
    ("vacuum",
      [ ("Operating Room", 8); ("ICU", 5); ("Emergency Room", 6);
        ("Recovery Room", 3); ("Patient Room", 2); ("NICU", 4) ]) ].

(** ** Demand of one outlet *)

(** The method is private and its one call site passes [outlet.type], so
    the gas type ranges over the outlet union; none of its seven names is
    inherited from [Object.prototype], and [FLOW_RATES[gasType]] is the own
    property or [undefined].  The room type is any string. *)
Definition getBaseFlowRate (gasType : OutletGas.t) (roomType : string) : value :=
  match Map_get FLOW_RATES (OutletGas.name gasType) with
  | Some flowRates => or_default (entry (lookup flowRates roomType)) 5
  | None => Number (Finite 5)
  end.

Module RoomDemand.
Record t : Type := mk {
  totalDemand : jsnum;
  peakDemand : jsnum;
  pressure : Q
}.
End RoomDemand.

Definition calculateRoomDemand (room : RoomGasRequirements.t)
    (outlet : MedicalGasOutlet.t) : RoomDemand.t :=
  let baseFlowRate :=
    getBaseFlowRate (MedicalGasOutlet.type outlet) (RoomGasRequirements.roomType room) in
  let totalDemand :=
    jmul (Finite (MedicalGasOutlet.quantity outlet)) (ToNumber baseFlowRate) in
  let peakDemand :=
    jmul totalDemand (Finite (MedicalGasOutlet.simultaneousFactor outlet)) in
  RoomDemand.mk totalDemand peakDemand (MedicalGasOutlet.pressure outlet).

(** ** System pressure requirements *)

Definition getSystemPressureRequirements (gasType : string)
    : SystemPressureRequirements.t :=
  let standards := lookup NFPA99_STANDARDS gasType in
  if negb (found standards) then
    SystemPressureRequirements.mk (Finite 50)
      (AlarmSetPoints.mk (Finite 55) (Finite 45) (Finite 42)) (Finite 100) dual
  else
    SystemPressureRequirements.mk
      (Math_abs (ToNumber (field Standards.operatingPressure standards)))
      (AlarmSetPoints.mk
         (Math_abs (ToNumber (field Standards.highPressureAlarm standards)))
         (Math_abs (ToNumber (field Standards.lowPressureAlarm standards)))
         (jsub (Math_abs (ToNumber (field Standards.lowPressureAlarm standards)))
               (Finite 3)))
      (Finite 100) dual.

(** ** Equipment requirements *)

Definition getPrimarySupplyRecommendation (gasType : string) (demand : jsnum)
    : string :=
  if String.eqb gasType "oxygen" then
    if gtb demand (Finite 200) then "Liquid oxygen bulk tank (1500+ gallon)"
    else if gtb demand (Finite 50) then "Liquid oxygen bulk tank (500-1500 gallon)"
    else "High-pressure cylinder manifold (6-12 cylinders)"
  else if String.eqb gasType "air" then
    if gtb demand (Finite 100) then "Dual rotary screw compressors with dryers"
    else if gtb demand (Finite 25) then "Single rotary screw compressor with backup"
    else "Reciprocating compressor with backup"
  else if String.eqb gasType "vacuum" then
    if gtb demand (Finite 60) then "Dual liquid ring vacuum pumps"
    else if gtb demand (Finite 20) then "Single liquid ring with backup rotary vane"
    else "Rotary vane vacuum pumps (duplex)"
  else "High-pressure cylinder manifold".

Definition getBackupSupplyRecommendation (gasType : string) (demand : jsnum)
    : string :=
  if String.eqb gasType "oxygen" then
    "High-pressure cylinder manifold (automatic switchover)"
  else if String.eqb gasType "air" then
    "Secondary compressor with automatic start"
  else if String.eqb gasType "vacuum" then
    "Secondary vacuum pump with automatic start"
  else "Secondary cylinder manifold".

Definition alarmFeatures : list string :=
  [ "Master alarm panel"; "Local pressure switches";
    "Automatic switchover"; "Remote monitoring capability" ].

Definition calculateEquipmentRequirements (system : MedicalGasSystem.t)
    : MedicalGasSystem.t :=
  let gasType := Gas.name (MedicalGasSystem.gasType system) in
  let peakDemand := MedicalGasSystem.peakDemand system in
  MedicalGasSystem.set_equipment system
    (Equipment.mk
       (getPrimarySupplyRecommendation gasType peakDemand)
       (getBackupSupplyRecommendation gasType peakDemand)
       (if gtb peakDemand (Finite 100) then Finite 2 else Finite 1)
       (Math_ceil (jdiv peakDemand (Finite 50)))
       alarmFeatures).

(** ** Compliance checks *)

Definition pressureCheck (system : MedicalGasSystem.t)
    (standards : property Standards.t) : ComplianceCheck.t :=
  let operatingPressure :=
    SystemPressureRequirements.operatingPressure
      (MedicalGasSystem.systemPressure system) in
  ComplianceCheck.mk
    "NFPA 99-2021 Section 5.1.3.2"
    [ Lit "Operating pressure: "; Num (field Standards.operatingPressure standards);
      Lit " PSI ±5 PSI" ]
    (if leb (Math_abs
               (jsub operatingPressure
                     (Math_abs (ToNumber (field Standards.operatingPressure standards)))))
            (Finite 5)
     then compliant else non_compliant)
    [ Lit "System pressure: "; Num (Number operatingPressure); Lit " PSI" ].

Definition backupCheck (system : MedicalGasSystem.t) : ComplianceCheck.t :=
  let backupSupply := Equipment.backupSupply (MedicalGasSystem.equipment system) in
  ComplianceCheck.mk
    "NFPA 99-2021 Section 5.1.11"
    [ Lit "Automatic backup system required" ]
    (if String.eqb backupSupply "" then non_compliant else compliant)
    [ Lit (if String.eqb backupSupply "" then "No backup system specified"
           else backupSupply) ].

Definition alarmCheck (system : MedicalGasSystem.t) : ComplianceCheck.t :=
  let alarms := Equipment.alarms (MedicalGasSystem.equipment system) in
  ComplianceCheck.mk
    "NFPA 99-2021 Section 5.1.12"
    [ Lit "Master alarm system with local and remote monitoring" ]
    (if Nat.leb 3 (List.length alarms) then compliant else warning)
    [ Count (List.length alarms); Lit " alarm features specified" ].

Definition pressureDropCheck (system : MedicalGasSystem.t) : ComplianceCheck.t :=
  let totalPressureDrop :=
    Distribution.totalPressureDrop (MedicalGasSystem.distribution system) in
  if gtb totalPressureDrop (Finite 5) then
    ComplianceCheck.mk
      "NFPA 99-2021 Section 5.1.3.6"
      [ Lit "Total pressure drop should not exceed 5 PSI" ]
      warning
      [ Lit "Total pressure drop: "; Fixed totalPressureDrop 2; Lit " PSI" ]
  else
    ComplianceCheck.mk
      "NFPA 99-2021 Section 5.1.3.6"
      [ Lit "Total pressure drop should not exceed 5 PSI" ]
      compliant
      [ Lit "Total pressure drop: "; Fixed totalPressureDrop 2; Lit " PSI" ].

Definition performComplianceChecks (system : MedicalGasSystem.t) (gasType : string)
    : list ComplianceCheck.t :=
  let checks := [] in
  let standards := lookup NFPA99_STANDARDS gasType in
  let checks :=
    if found standards then checks ++ [ pressureCheck system standards ]
    else checks in
  let checks := checks ++ [ backupCheck system ] in
  let checks := checks ++ [ alarmCheck system ] in
  let checks := checks ++ [ pressureDropCheck system ] in
  checks.

(** ** Cost *)

Module CostTier.
Record t : Type := mk {
  low : Q;
  medium : Q;
  high : Q
}.
End CostTier.

Definition baseCosts : list (string * CostTier.t) :=
  [ ("oxygen", CostTier.mk 25000 75000 200000);
    ("air",    CostTier.mk 35000 85000 250000);
    ("vacuum", CostTier.mk 30000 80000 220000);
    ("co2",    CostTier.mk 15000 40000 100000);
    ("n2o",    CostTier.mk 20000 50000 120000) ].

Definition redundancyMultipliers (level : RedundancyLevel) : Q :=
  match level with
  | single => 1.0
  | dual => 1.4
  | triple => 1.8
  end.

(** The running [cost] of [calculateSystemCost] just before the redundancy
    multiplier is applied. *)
Definition costBeforeRedundancy (system : MedicalGasSystem.t) : jsnum :=
  let cost := Finite 0 in
  let gasTypeCosts := lookup baseCosts (Gas.name (MedicalGasSystem.gasType system)) in
  let cost :=
    if found gasTypeCosts then
      if gtb (MedicalGasSystem.peakDemand system) (Finite 200) then
        jadd cost (ToNumber (field CostTier.high gasTypeCosts))
      else if gtb (MedicalGasSystem.peakDemand system) (Finite 50) then
        jadd cost (ToNumber (field CostTier.medium gasTypeCosts))
      else jadd cost (ToNumber (field CostTier.low gasTypeCosts))
    else cost in
  let pipingCost :=
    jmul (Distribution.totalLength (MedicalGasSystem.distribution system))
         (Finite 150) in
  let cost := jadd cost pipingCost in
  let cost :=
    jadd cost (jmul (Equipment.manifolds (MedicalGasSystem.equipment system))
                    (Finite 15000)) in
  let cost :=
    jadd cost (jmul (Equipment.regulators (MedicalGasSystem.equipment system))
                    (Finite 2500)) in
  let cost :=
    jadd cost
         (jmul (Finite (inject_Z (Z.of_nat (List.length
                  (Equipment.alarms (MedicalGasSystem.equipment system))))))
               (Finite 5000)) in
  cost.

Definition calculateSystemCost (system : MedicalGasSystem.t) : jsnum :=
  let cost := costBeforeRedundancy system in
  let cost :=
    jmul cost
         (Finite (redundancyMultipliers
                    (SystemPressureRequirements.redundancyLevel
                       (MedicalGasSystem.systemPressure system)))) in
  Math_round cost.

(** ** Demand aggregation *)

Definition gasTypes : list Gas.t :=
  [ Gas.oxygen; Gas.air; Gas.vacuum; Gas.co2; Gas.n2o ].

Definition initialSystem (gasType : Gas.t) : MedicalGasSystem.t :=
  MedicalGasSystem.mk gasType (Finite 0) (Finite 0)
    (getSystemPressureRequirements (Gas.name gasType))
    (Distribution.mk [] [] (Finite 0) (Finite 0))
    (Equipment.mk "" "" (Finite 0) (Finite 0) [])
    [] (Finite 0).

Definition initialSystems : Map MedicalGasSystem.t :=
  fold_left (fun systems gasType =>
               Map_set systems (Gas.name gasType) (initialSystem gasType))
            gasTypes [].

(** Body of the inner [forEach]: the system found under the outlet's type is
    updated in place; an outlet whose type has no system is skipped. *)
Definition addOutlet (room : RoomGasRequirements.t)
    (systems : Map MedicalGasSystem.t) (outlet : MedicalGasOutlet.t)
    : Map MedicalGasSystem.t :=
  match Map_get systems (OutletGas.name (MedicalGasOutlet.type outlet)) with
  | Some system =>
      let roomDemand := calculateRoomDemand room outlet in
      let system :=
        MedicalGasSystem.set_totalDemand system
          (jadd (MedicalGasSystem.totalDemand system)
                (RoomDemand.totalDemand roomDemand)) in
      let system :=
        MedicalGasSystem.set_peakDemand system
          (jadd (MedicalGasSystem.peakDemand system)
                (RoomDemand.peakDemand roomDemand)) in
      Map_set systems (OutletGas.name (MedicalGasOutlet.type outlet)) system
  | None => systems
  end.

Definition addRoom (systems : Map MedicalGasSystem.t) (room : RoomGasRequirements.t)
    : Map MedicalGasSystem.t :=
  fold_left (addOutlet room) (RoomGasRequirements.outlets room) systems.

Definition accumulateDemand (rooms : list RoomGasRequirements.t)
    (systems : Map MedicalGasSystem.t) : Map MedicalGasSystem.t :=
  fold_left addRoom rooms systems.

(** Body of the final [systems.forEach]; [gasType] is the key of the map. *)
Definition finalizeSystem (gasType : string) (system : MedicalGasSystem.t)
    : MedicalGasSystem.t :=
  let standards := lookup NFPA99_STANDARDS gasType in
  let system :=
    if found standards then
      MedicalGasSystem.set_peakDemand system
        (jmul (MedicalGasSystem.totalDemand system)
              (ToNumber (field Standards.simultaneousFactor standards)))
    else system in
  let system := calculateEquipmentRequirements system in
  let system :=
    MedicalGasSystem.set_compliance system (performComplianceChecks system gasType) in
  MedicalGasSystem.set_estimatedCost system (calculateSystemCost system).

Definition calculateSystemDemand (rooms : list RoomGasRequirements.t)
    : Map MedicalGasSystem.t :=
  let systems := accumulateDemand rooms initialSystems in
  map (fun entry => (fst entry, finalizeSystem (fst entry) (snd entry))) systems.

(** The method contains no [throw] and calls nothing that throws: its
    completion is always a return. *)
Definition calculateSystemDemand_completion (rooms : list RoomGasRequirements.t)
    : completion (Map MedicalGasSystem.t) :=
  Returns (calculateSystemDemand rooms).

(** ** Engineering report *)

Module Summary.
Record t : Type := mk {
  totalRooms : nat;
  totalOutlets : Q;
  totalSystemCost : jsnum;
  gasTypesRequired : list string;
  complianceScore : jsnum;
  recommendationCount : nat
}.
End Summary.

Module EngineeringReport.
Record t : Type := mk {
  summary : Summary.t;
  systems : Map MedicalGasSystem.t;
  recommendations : list text;
  compliance : list ComplianceCheck.t
}.
End EngineeringReport.

Definition isCompliant (c : ComplianceCheck.t) : bool :=
  match ComplianceCheck.status c with compliant => true | _ => false end.

Definition isNonCompliant (c : ComplianceCheck.t) : bool :=
  match ComplianceCheck.status c with non_compliant => true | _ => false end.

(** Body of the [forEach] that generates recommendations. *)
Definition recommend (recommendations : list text)
    (entry : string * MedicalGasSystem.t) : list text :=
  let gasType := fst entry in
  let system := snd entry in
  let recommendations :=
    if gtb (Distribution.totalPressureDrop (MedicalGasSystem.distribution system))
           (Finite 3)
    then recommendations ++
         [[ Lit "Consider larger pipe sizes for "; Lit gasType;
            Lit " system to reduce pressure drop" ]]
    else recommendations in
  let recommendations :=
    if gtb (MedicalGasSystem.peakDemand system)
           (jmul (MedicalGasSystem.totalDemand system) (Finite 0.9))
    then recommendations ++
         [[ Lit "High simultaneous use factor for "; Lit gasType;
            Lit " - consider increasing backup capacity" ]]
    else recommendations in
  let nonCompliantChecks := filter isNonCompliant (MedicalGasSystem.compliance system) in
  if Nat.ltb 0 (List.length nonCompliantChecks)
  then recommendations ++
       [[ Lit "Address "; Count (List.length nonCompliantChecks);
          Lit " compliance issues for "; Lit gasType; Lit " system" ]]
  else recommendations.

Definition generateEngineeringReport (rooms : list RoomGasRequirements.t)
    : EngineeringReport.t :=
  let systems := calculateSystemDemand rooms in
  let allCompliance := flat_map MedicalGasSystem.compliance (Map_values systems) in
  let recommendations := fold_left recommend systems [] in
  let totalCost :=
    fold_left (fun sum system => jadd sum (MedicalGasSystem.estimatedCost system))
              (Map_values systems) (Finite 0) in
  let totalOutlets :=
    fold_left
      (fun sum room =>
         sum + fold_left (fun outletSum outlet =>
                            outletSum + MedicalGasOutlet.quantity outlet)
                         (RoomGasRequirements.outlets room) 0)
      rooms 0 in
  let summary :=
    Summary.mk
      (List.length rooms)
      totalOutlets
      totalCost
      (Map_keys systems)
      (jmul (jdiv (Finite (inject_Z (Z.of_nat
                     (List.length (filter isCompliant allCompliance)))))
                  (Finite (inject_Z (Z.of_nat (List.length allCompliance)))))
            (Finite 100))
      (List.length recommendations) in
  EngineeringReport.mk summary systems recommendations allCompliance.

(** ** Validation of a system *)

Module Validation.
Record t : Type := mk {
  isValid : bool;
  errors : list text;
  warnings : list text
}.
End Validation.

Definition validateSystem (system : MedicalGasSystem.t) : Validation.t :=
  let errors : list text := [] in
  let warnings : list text := [] in
  let operatingPressure :=
    SystemPressureRequirements.operatingPressure
      (MedicalGasSystem.systemPressure system) in
  let totalPressureDrop :=
    Distribution.totalPressureDrop (MedicalGasSystem.distribution system) in
  let standards :=
    lookup NFPA99_STANDARDS (Gas.name (MedicalGasSystem.gasType system)) in
  let '(errors, warnings) :=
    if found standards then
      let pressureDiff :=
        Math_abs (jsub operatingPressure
                       (Math_abs (ToNumber
                                    (field Standards.operatingPressure standards)))) in
      if gtb pressureDiff (Finite 5) then
        (errors ++ [[ Lit "Operating pressure ("; Num (Number operatingPressure);
                      Lit " PSI) exceeds NFPA 99 tolerance" ]],
         warnings)
      else if gtb pressureDiff (Finite 2) then
        (errors,
         warnings ++ [[ Lit "Operating pressure ("; Num (Number operatingPressure);
                        Lit " PSI) approaching NFPA 99 limits" ]])
      else (errors, warnings)
    else (errors, warnings) in
  let errors :=
    if String.eqb (Equipment.backupSupply (MedicalGasSystem.equipment system)) ""
    then errors ++ [[ Lit "Backup supply system is required per NFPA 99" ]]
    else errors in
  let warnings :=
    if Nat.ltb (List.length (Equipment.alarms (MedicalGasSystem.equipment system))) 3
    then warnings ++
         [[ Lit "Consider additional alarm features for enhanced monitoring" ]]
    else warnings in
  let '(errors, warnings) :=
    if gtb totalPressureDrop (Finite 5) then
      (errors ++ [[ Lit "Total pressure drop ("; Fixed totalPressureDrop 2;
                    Lit " PSI) exceeds NFPA 99 limits" ]],
       warnings)
    else if gtb totalPressureDrop (Finite 3) then
      (errors,
       warnings ++ [[ Lit "Pressure drop ("; Fixed totalPressureDrop 2;
                      Lit " PSI) is high - consider larger pipes" ]])
    else (errors, warnings) in
  Validation.mk (Nat.eqb (List.length errors) 0) errors warnings.

(** ** Pipe sizing *)

Definition standardSizes : list Q := [ 0.5; 0.75; 1; 1.25; 1.5; 2; 2.5; 3; 4; 6; 8 ].

(** The local arrow function [maxVelocity] of [calculatePipeSizing]. *)
Definition maxVelocity (gasType : string) : Q :=
  if String.eqb gasType "vacuum" then 5000 / 60 else 25.

(** [Math.PI * Math.pow(diameter / 12 / 2, 2)], in square feet; not zero for
    a diameter that is not zero. *)
Definition area (diameter : Q) : Q :=
  Math_PI * ((diameter / 12 / 2) * (diameter / 12 / 2)).

(** [(flowRate / 60) / area], in feet per second. *)
Definition velocityAt (flowRate diameter : Q) : Q := (flowRate / 60) / area diameter.

Section PipeSizing.

(** [Math.log10] and [Math.pow]. *)
Variable Math_log10 : jsnum -> jsnum.
Variable Math_pow : jsnum -> jsnum -> jsnum.

Definition calculateReynoldsNumber (velocity diameter : Q) : jsnum :=
  let kinematicViscosity := 1.57e-4 in
  jdiv (jdiv (jmul (Finite velocity) (Finite diameter)) (Finite 12))
       (Finite kinematicViscosity).

Definition calculateFrictionFactor (reynoldsNumber : jsnum) (roughness : value)
    (diameter : Q) : jsnum :=
  let relativeRoughness :=
    jdiv (ToNumber roughness) (jdiv (Finite diameter) (Finite 12)) in
  let l :=
    Math_log10
      (jadd (jdiv relativeRoughness (Finite 3.7))
            (jdiv (Finite 5.74) (Math_pow reynoldsNumber (Finite 0.9)))) in
  jdiv (Finite 0.25) (jmul l l).

Definition calculatePressureDrop (flowRate diameter length : Q) (roughness : value)
    (velocity : Q) : jsnum :=
  let reynoldsNumber := calculateReynoldsNumber velocity diameter in
  let frictionFactor := calculateFrictionFactor reynoldsNumber roughness diameter in
  let densityAir := 0.075 in
  let gc := 32.174 in
  let pressureDrop :=
    jdiv (jmul (jmul frictionFactor
                     (jdiv (Finite length) (jdiv (Finite diameter) (Finite 12))))
               (jmul (Finite densityAir) (jmul (Finite velocity) (Finite velocity))))
         (jmul (Finite 2) (Finite gc)) in
  jdiv pressureDrop (Finite 144).

(** The pipe described by the object literal both return statements build. *)
Definition pipeOf (flowRate length : Q) (material : string) (roughness : value)
    (diameter : Q) : PipeCalculation.t :=
  let velocity := velocityAt flowRate diameter in
  let pressureDrop := calculatePressureDrop flowRate diameter length roughness velocity in
  PipeCalculation.mk diameter length material pressureDrop velocity flowRate roughness.

(** The [for ... of] loop: [Some] is a [return] from inside the loop,
    [None] is falling out of it. *)
Fixpoint sizingLoop (flowRate length : Q) (material : string) (roughness : value)
    (sizes : list Q) : option PipeCalculation.t :=
  match sizes with
  | [] => None
  | diameter :: rest =>
      let velocity := velocityAt flowRate diameter in
      if Qle_bool velocity (maxVelocity "oxygen") then
        Some (pipeOf flowRate length material roughness diameter)
      else sizingLoop flowRate length material roughness rest
  end.

Definition calculatePipeSizing (flowRate pressure length : Q) (material : string)
    : PipeCalculation.t :=
  let roughness := or_default (entry (lookup PIPE_ROUGHNESS material)) 0.000015 in
  match sizingLoop flowRate length material roughness standardSizes with
  | Some result => result
  | None => pipeOf flowRate length material roughness 8
  end.

End PipeSizing.

(** ** Client notifications

    The notification methods of [ClientPortalService] read and write only
    the field [notifications]; it is threaded explicitly.  The identifier
    drawn from [Math.random] and the timestamp read from the clock are
    arguments.  Writing the maps to local storage ([saveData]) is not
    modelled. *)

Inductive NotificationType : Type :=
| project_update | milestone_reached | document_shared
| message_received | payment_due | system_alert.

Inductive Priority : Type := low | medium | high.

Module Notification.
Record t : Type := mk {
  id : string;
  clientId : string;
  projectId : option string;
  type : NotificationType;
  title : string;
  message : string;
  timestamp : string;
  read : bool;
  actionRequired : bool;
  actionUrl : option string;
  priority : Priority
}.

(** [notification.read = true]. *)
Definition set_read (n : t) (v : bool) : t :=
  mk (id n) (clientId n) (projectId n) (type n) (title n) (message n)
     (timestamp n) v (actionRequired n) (actionUrl n) (priority n).
End Notification.

(** [Omit<Notification, 'id' | 'clientId' | 'timestamp' | 'read'>]. *)
Module NotificationInput.
Record t : Type := mk {
  projectId : option string;
  type : NotificationType;
  title : string;
  message : string;
  actionRequired : bool;
  actionUrl : option string;
  priority : Priority
}.
End NotificationInput.

(** [this.notifications.get(clientId) || []]: an array, even an empty one,
    is truthy, so only a missing key gives the fresh empty array. *)
Definition getClientNotifications (notifications : Map (list Notification.t))
    (clientId : string) : list Notification.t :=
  match Map_get notifications clientId with
  | Some clientNotifications => clientNotifications
  | None => []
  end.

(** The object literal [addNotification] builds. *)
Definition newNotification (randomId now clientId : string)
    (notification : NotificationInput.t) : Notification.t :=
  Notification.mk randomId clientId
    (NotificationInput.projectId notification)
    (NotificationInput.type notification)
    (NotificationInput.title notification)
    (NotificationInput.message notification)
    now false
    (NotificationInput.actionRequired notification)
    (NotificationInput.actionUrl notification)
    (NotificationInput.priority notification).

Definition addNotification (notifications : Map (list Notification.t))
    (randomId now : string) (clientId : string) (notification : NotificationInput.t)
    : Map (list Notification.t) :=
  let clientNotifications := getClientNotifications notifications clientId in
  let clientNotifications :=
    newNotification randomId now clientId notification :: clientNotifications in
  Map_set notifications clientId (firstn 50 clientNotifications).

(** Effect of [notification.read = true] on the array that holds the first
    notification found with the given id. *)
Fixpoint markFirst (notificationId : string) (clientNotifications : list Notification.t)
    : list Notification.t :=
  match clientNotifications with
  | [] => []
  | n :: rest =>
      if String.eqb (Notification.id n) notificationId
      then Notification.set_read n true :: rest
      else n :: markFirst notificationId rest
  end.

Definition markNotificationAsRead (notifications : Map (list Notification.t))
    (clientId notificationId : string) : bool * Map (list Notification.t) :=
  let clientNotifications := getClientNotifications notifications clientId in
  match find (fun n => String.eqb (Notification.id n) notificationId)
             clientNotifications with
  | Some _ =>
      (true, Map_set notifications clientId (markFirst notificationId clientNotifications))
  | None => (false, notifications)
  end.

(** ** Specification-level notions used to state the properties *)

(** The system initialised for [gasType], holding the running sums
    [(total, peak)]. *)
Definition withDemand (gasType : Gas.t) (d : jsnum * jsnum) : MedicalGasSystem.t :=
  MedicalGasSystem.set_peakDemand
    (MedicalGasSystem.set_totalDemand (initialSystem gasType) (fst d)) (snd d).

(** The map the accumulation loop works on, as a function of the running
    sums per gas type. *)
Definition demandState (D : Gas.t -> jsnum * jsnum) : Map MedicalGasSystem.t :=
  map (fun gasType => (Gas.name gasType, withDemand gasType (D gasType))) gasTypes.

(** Effect of one outlet, one room and a room list on the running sums. *)
Definition bumpOutlet (room : RoomGasRequirements.t) (D : Gas.t -> jsnum * jsnum)
    (outlet : MedicalGasOutlet.t) : Gas.t -> jsnum * jsnum :=
  fun gasType =>
    if String.eqb (Gas.name gasType) (OutletGas.name (MedicalGasOutlet.type outlet)) then
      (jadd (fst (D gasType)) (RoomDemand.totalDemand (calculateRoomDemand room outlet)),
       jadd (snd (D gasType)) (RoomDemand.peakDemand (calculateRoomDemand room outlet)))
    else D gasType.

Definition bumpRoom (D : Gas.t -> jsnum * jsnum) (room : RoomGasRequirements.t)
    : Gas.t -> jsnum * jsnum :=
  fold_left (bumpOutlet room) (RoomGasRequirements.outlets room) D.

Definition demandSums (rooms : list RoomGasRequirements.t) : Gas.t -> jsnum * jsnum :=
  fold_left bumpRoom rooms (fun _ => (Finite 0, Finite 0)).

(** The running total of one gas type after the accumulation loop. *)
Definition installedDemand (gasType : Gas.t) (rooms : list RoomGasRequirements.t)
    : jsnum :=
  fst (demandSums rooms gasType).

(** The system [calculateSystemDemand] returns for a gas type. *)
Definition systemOf (rooms : list RoomGasRequirements.t) (gasType : Gas.t)
    : option MedicalGasSystem.t :=
  Map_get (calculateSystemDemand rooms) (Gas.name gasType).

(** Every outlet quantity of every room is non-negative. *)
Definition nonNegativeQuantities (rooms : list RoomGasRequirements.t) : Prop :=
  Forall (fun room =>
            Forall (fun outlet => 0 <= MedicalGasOutlet.quantity outlet)
                   (RoomGasRequirements.outlets room))
         rooms.

(** No room type is the name of a member of [Object.prototype]. *)
Definition plainRoomTypes (rooms : list RoomGasRequirements.t) : Prop :=
  Forall (fun room => isInherited (RoomGasRequirements.roomType room) = false) rooms.

(** Some room has a negative area or an outlet with a negative quantity. *)
Definition hasNegativeInput (rooms : list RoomGasRequirements.t) : bool :=
  existsb (fun room =>
             negb (Qle_bool 0 (RoomGasRequirements.area room))
             || existsb (fun outlet =>
                           negb (Qle_bool 0 (MedicalGasOutlet.quantity outlet)))
                        (RoomGasRequirements.outlets room))
          rooms.

(** The entry the flow-rate catalog itself holds for a gas type and a room
    type, if any. *)
Definition catalogRate (gasType : OutletGas.t) (roomType : string) : option Q :=
  match Map_get FLOW_RATES (OutletGas.name gasType) with
  | Some flowRates => Map_get flowRates roomType
  | None => None
  end.

(** The simultaneous-use factor the standards table is said to hold. *)
Definition statedFactor (gasType : Gas.t) : Q :=
  match gasType with
  | Gas.oxygen => 0.75
  | Gas.air => 0.75
  | Gas.vacuum => 0.50
  | Gas.n2o => 0.25
  | Gas.co2 => 0.25
  end.

(** Sums over a list of pipe calculations. *)
Definition sumLength (pipes : list PipeCalculation.t) : jsnum :=
  fold_left (fun sum pipe => jadd sum (Finite (PipeCalculation.length pipe)))
            pipes (Finite 0).

Definition sumPressureDrop (pipes : list PipeCalculation.t) : jsnum :=
  fold_left (fun sum pipe => jadd sum (PipeCalculation.pressureDrop pipe))
            pipes (Finite 0).


(** Outlets and rooms with the per-outlet simultaneous factor blanked out:
    two room lists agree on everything else iff their images are equal. *)
Definition eraseFactor (outlet : MedicalGasOutlet.t) : MedicalGasOutlet.t :=
  MedicalGasOutlet.mk
    (MedicalGasOutlet.type outlet) (MedicalGasOutlet.quantity outlet)
    (MedicalGasOutlet.flowRate outlet) (MedicalGasOutlet.pressure outlet)
    0
    (MedicalGasOutlet.backupRequired outlet) (MedicalGasOutlet.location outlet).

Definition eraseFactors (room : RoomGasRequirements.t) : RoomGasRequirements.t :=
  RoomGasRequirements.mk
    (RoomGasRequirements.roomId room) (RoomGasRequirements.roomName room)
    (RoomGasRequirements.roomType room) (RoomGasRequirements.area room)
    (RoomGasRequirements.ceilingHeight room)
    (map eraseFactor (RoomGasRequirements.outlets room))
    (RoomGasRequirements.pressurization room)
    (RoomGasRequirements.airChangesPerHour room)
    (RoomGasRequirements.filtrationLevel room)
    (RoomGasRequirements.specialRequirements room).

Definition sameExceptFactor (rooms1 rooms2 : list RoomGasRequirements.t) : Prop :=
  map eraseFactors rooms1 = map eraseFactors rooms2.

(** Demand by formula: the demands [quantity * base flow rate] of the
    outlets of one gas type, in the order the rooms and their outlets are
    listed, added up from the left starting from 0. *)
Definition suppliedBy (gasType : Gas.t) (outlet : MedicalGasOutlet.t) : bool :=
  String.eqb (Gas.name gasType) (OutletGas.name (MedicalGasOutlet.type outlet)).

Definition outletDemand (room : RoomGasRequirements.t) (outlet : MedicalGasOutlet.t)
    : jsnum :=
  jmul (Finite (MedicalGasOutlet.quantity outlet))
       (ToNumber (getBaseFlowRate (MedicalGasOutlet.type outlet)
                                  (RoomGasRequirements.roomType room))).

Definition outletDemands (gasType : Gas.t) (rooms : list RoomGasRequirements.t)
    : list jsnum :=
  flat_map (fun room =>
              map (outletDemand room)
                  (filter (suppliedBy gasType) (RoomGasRequirements.outlets room)))
           rooms.

Definition facilityDemand (gasType : Gas.t) (rooms : list RoomGasRequirements.t)
    : jsnum :=
  fold_left jadd (outletDemands gasType rooms) (Finite 0).

(** Whether an outlet's gas has a system. *)
Definition hasSystem (outlet : MedicalGasOutlet.t) : bool :=
  existsb (fun gasType =>
             String.eqb (Gas.name gasType) (OutletGas.name (MedicalGasOutlet.type outlet)))
          gasTypes.

(** A room without the outlets whose gas has no system. *)
Definition knownOutletsOnly (room : RoomGasRequirements.t) : RoomGasRequirements.t :=
  RoomGasRequirements.mk
    (RoomGasRequirements.roomId room) (RoomGasRequirements.roomName room)
    (RoomGasRequirements.roomType room) (RoomGasRequirements.area room)
    (RoomGasRequirements.ceilingHeight room)
    (filter hasSystem (RoomGasRequirements.outlets room))
    (RoomGasRequirements.pressurization room)
    (RoomGasRequirements.airChangesPerHour room)
    (RoomGasRequirements.filtrationLevel room)
    (RoomGasRequirements.specialRequirements room).


(** A total that is a non-negative rational, or NaN. *)
Definition nonNegativeOrNaN (x : jsnum) : Prop :=
  match x with
  | Finite q => 0 <= q
  | NaN => True
  | _ => False
  end.

(** ** Sample inputs *)

Definition bedside : Location.t := Location.mk "R1" "headwall" 60.

Definition outletOf (gasType : OutletGas.t) (quantity factor : Q) : MedicalGasOutlet.t :=
  MedicalGasOutlet.mk gasType quantity 0 50 factor true bedside.

Definition roomOf (roomType : string) (area : Q) (outlets : list MedicalGasOutlet.t)
    : RoomGasRequirements.t :=
  RoomGasRequirements.mk "R1" "Room 1" roomType area 10 outlets positive 20 "HEPA" [].

(** The operating room of scenario A: oxygen 6, air 4, vacuum 6, CO2 2, N2O 4. *)
Definition operatingRoom : RoomGasRequirements.t :=
  roomOf "Operating Room" 600
    [ outletOf OutletGas.oxygen 6 1; outletOf OutletGas.air 4 1;
      outletOf OutletGas.vacuum 6 1; outletOf OutletGas.co2 2 1;
      outletOf OutletGas.n2o 4 1 ].

(** A room whose oxygen outlet count and floor area are negative. *)
Definition negativeRoom : RoomGasRequirements.t :=
  roomOf "Operating Room" (-600) [ outletOf OutletGas.oxygen (-2) 1 ].

(** A room of a type the catalog does not list. *)
Definition dialysisRoom : RoomGasRequirements.t :=
  roomOf "Dialysis Suite" 200 [ outletOf OutletGas.oxygen 3 1 ].

(** A room whose type is the name of a member of [Object.prototype], with
    thirty oxygen outlets. *)
Definition toStringRoom : RoomGasRequirements.t :=
  roomOf "toString" 400 [ outletOf OutletGas.oxygen 30 1 ].

(** Sample notification input. *)
Definition welcome : NotificationInput.t :=
  NotificationInput.mk None system_alert "Welcome" "Your account has been created"
                       true (Some "/verify-email") medium.

(** * Properties *)

(** ** Numbers *)

Lemma gtb_Finite_true (a b : Q) : gtb (Finite a) (Finite b) = true <-> b < a.
Proof.
  cbn [gtb]. rewrite negb_true_iff. split.
  - intro Hb. apply Qnot_le_lt. intro Hle. apply Qle_bool_iff in Hle. congruence.
  - intro Hlt. destruct (Qle_bool a b) eqn:E; [| reflexivity].
    apply Qle_bool_iff in E. lra.
Qed.

Lemma gtb_Finite_false (a b : Q) : gtb (Finite a) (Finite b) = false <-> a <= b.
Proof.
  cbn [gtb]. rewrite negb_false_iff. apply Qle_bool_iff.
Qed.

Lemma leb_Finite_true (a b : Q) : leb (Finite a) (Finite b) = true <-> a <= b.
Proof. cbn [leb]. apply Qle_bool_iff. Qed.

Lemma gtb_leb (x y : jsnum) : gtb x y = true -> leb x y = false.
Proof.
  destruct x as [a | | |], y as [b | | |]; cbn [gtb leb]; try discriminate;
    try reflexivity.
  rewrite negb_true_iff. trivial.
Qed.

(** ** Maps and lookup tables *)

Lemma Map_get_set (V : Type) (m : Map V) (k : string) (v : V) :
  Map_get (Map_set m k v) k = Some v.
Proof.
  induction m as [| [k0 v0] rest IH]; cbn [Map_set Map_get].
  - now rewrite String.eqb_refl.
  - destruct (String.eqb k0 k) eqn:E; cbn [Map_get]; rewrite E;
      [reflexivity | exact IH].
Qed.

Lemma Map_get_set_other (V : Type) (m : Map V) (k k' : string) (v : V) :
  k' <> k -> Map_get (Map_set m k v) k' = Map_get m k'.
Proof.
  intro Hneq.
  induction m as [| [k0 v0] rest IH]; cbn [Map_set Map_get].
  - destruct (String.eqb_spec k k'); [congruence | reflexivity].
  - destruct (String.eqb_spec k0 k) as [-> | Hk0]; cbn [Map_get].
    + destruct (String.eqb_spec k k'); [congruence | reflexivity].
    + destruct (String.eqb k0 k'); [reflexivity | exact IH].
Qed.

Lemma Map_set_set (V : Type) (m : Map V) (k : string) (v v' : V) :
  Map_set (Map_set m k v) k v' = Map_set m k v'.
Proof.
  induction m as [| [k0 v0] rest IH]; cbn [Map_set].
  - now rewrite String.eqb_refl.
  - destruct (String.eqb k0 k) eqn:E; cbn [Map_set]; rewrite E;
      [reflexivity | now rewrite IH].
Qed.

Lemma Map_get_Forall {V : Type} (P : V -> Prop) (table : list (string * V))
    (key : string) (v : V) :
  Forall (fun entry => P (snd entry)) table -> Map_get table key = Some v -> P v.
Proof.
  induction table as [| [k' v'] rest IH]; intros Hall Hget.
  - discriminate.
  - inversion Hall as [| ? ? Hhead Htail]; subst.
    cbn [Map_get] in Hget.
    destruct (String.eqb k' key).
    + injection Hget as <-. exact Hhead.
    + now apply IH.
Qed.

(** The five gas types are own keys of the standards table and of the cost
    table, with the factor the table is said to hold. *)
Lemma standards_of_gasType (gasType : Gas.t) :
  exists standards,
    lookup NFPA99_STANDARDS (Gas.name gasType) = Own standards
    /\ Standards.simultaneousFactor standards = statedFactor gasType.
Proof. destruct gasType; eexists; split; reflexivity. Qed.

Lemma statedFactor_range (gasType : Gas.t) :
  0 < statedFactor gasType /\ statedFactor gasType <= 0.75.
Proof. destruct gasType; split; (reflexivity || discriminate). Qed.

(** ** The accumulation loop, as running sums per gas type *)

Lemma initialSystems_state : initialSystems = demandState (fun _ => (Finite 0, Finite 0)).
Proof. reflexivity. Qed.

Lemma addOutlet_state (room : RoomGasRequirements.t) (D : Gas.t -> jsnum * jsnum)
    (outlet : MedicalGasOutlet.t) :
  addOutlet room (demandState D) outlet = demandState (bumpOutlet room D outlet).
Proof.
  unfold addOutlet, demandState, bumpOutlet, gasTypes.
  set (rd := calculateRoomDemand room outlet).
  destruct (MedicalGasOutlet.type outlet); reflexivity.
Qed.

Lemma addRoom_state (room : RoomGasRequirements.t) (D : Gas.t -> jsnum * jsnum) :
  addRoom (demandState D) room = demandState (bumpRoom D room).
Proof.
  unfold addRoom, bumpRoom.
  generalize dependent D.
  induction (RoomGasRequirements.outlets room) as [| outlet rest IH]; intro D.
  - reflexivity.
  - cbn [fold_left]. rewrite addOutlet_state. apply IH.
Qed.

Lemma accumulateDemand_state (rooms : list RoomGasRequirements.t) :
  forall D : Gas.t -> jsnum * jsnum,
    accumulateDemand rooms (demandState D) = demandState (fold_left bumpRoom rooms D).
Proof.
  induction rooms as [| room rest IH]; intro D.
  - reflexivity.
  - cbn [accumulateDemand fold_left]. rewrite addRoom_state. apply IH.
Qed.

(** [calculateSystemDemand] yields one entry per gas type, in the order of
    initialisation, each finalised from its running sums. *)
Lemma calculateSystemDemand_entries (rooms : list RoomGasRequirements.t) :
  calculateSystemDemand rooms =
  map (fun gasType =>
         (Gas.name gasType,
          finalizeSystem (Gas.name gasType)
                         (withDemand gasType (demandSums rooms gasType))))
      gasTypes.
Proof.
  unfold calculateSystemDemand.
  rewrite initialSystems_state, accumulateDemand_state.
  unfold demandState. rewrite map_map. reflexivity.
Qed.

Lemma systemOf_entry (rooms : list RoomGasRequirements.t) (gasType : Gas.t) :
  systemOf rooms gasType
  = Some (finalizeSystem (Gas.name gasType)
                         (withDemand gasType (demandSums rooms gasType))).
Proof.
  unfold systemOf. rewrite calculateSystemDemand_entries.
  destruct gasType; reflexivity.
Qed.

Lemma finalizeSystem_demand (gasType : Gas.t) (d : jsnum * jsnum) :
  MedicalGasSystem.totalDemand
    (finalizeSystem (Gas.name gasType) (withDemand gasType d)) = fst d
  /\ MedicalGasSystem.peakDemand
       (finalizeSystem (Gas.name gasType) (withDemand gasType d))
     = jmul (fst d) (Finite (statedFactor gasType)).
Proof. destruct gasType; split; reflexivity. Qed.

(** ** Base flow rates *)

Lemma FLOW_RATES_range :
  Forall (fun byGas =>
            (fun flowRates =>
               Forall (fun entry => (fun v => 2 <= v /\ v <= 15) (snd entry)) flowRates)
              (snd byGas))
         FLOW_RATES.
Proof.
  unfold FLOW_RATES.
  repeat (constructor; cbn [snd]); discriminate.
Qed.

(** What [getBaseFlowRate] returns: a rate between 2 and 15, or, for a room
    type named like a member of [Object.prototype] and a gas with a catalog
    of its own, that member. *)
Lemma getBaseFlowRate_cases (gasType : OutletGas.t) (roomType : string) :
  (exists rate,
     getBaseFlowRate gasType roomType = Number (Finite rate)
     /\ 2 <= rate /\ rate <= 15)
  \/ (getBaseFlowRate gasType roomType = Member roomType
      /\ isInherited roomType = true
      /\ Map_get FLOW_RATES (OutletGas.name gasType) <> None).
Proof.
  unfold getBaseFlowRate.
  destruct (Map_get FLOW_RATES (OutletGas.name gasType)) as [flowRates |] eqn:Hgas.
  - pose proof (Map_get_Forall
                  (fun flowRates =>
                     Forall (fun entry => (fun v => 2 <= v /\ v <= 15) (snd entry))
                            flowRates)
                  _ _ _ FLOW_RATES_range Hgas) as Hrates.
    cbv beta in Hrates.
    unfold lookup.
    destruct (Map_get flowRates roomType) as [x |] eqn:Hroom.
    + pose proof (Map_get_Forall (fun v => 2 <= v /\ v <= 15) _ _ _ Hrates Hroom)
        as [Hlo Hhi].
      left. exists x. unfold or_default, entry, truthy.
      destruct (Qeq_bool x 0) eqn:Hzero.
      * apply Qeq_bool_iff in Hzero. lra.
      * cbn [negb]. repeat split; assumption.
    + destruct (isInherited roomType) eqn:Hinh.
      * right. split; [reflexivity |]. split; [reflexivity | discriminate].
      * left. exists 5. repeat split; discriminate.
  - left. exists 5. repeat split; discriminate.
Qed.

Lemma getBaseFlowRate_plain (gasType : OutletGas.t) (roomType : string) :
  isInherited roomType = false ->
  exists rate,
    getBaseFlowRate gasType roomType = Number (Finite rate)
    /\ 2 <= rate /\ rate <= 15.
Proof.
  intro Hplain.
  destruct (getBaseFlowRate_cases gasType roomType) as [Hrate | [_ [Hinh _]]];
    [exact Hrate | congruence].
Qed.

(** ** Running sums *)

Lemma roomDemand_nonneg (room : RoomGasRequirements.t) (outlet : MedicalGasOutlet.t) :
  0 <= MedicalGasOutlet.quantity outlet ->
  nonNegativeOrNaN (RoomDemand.totalDemand (calculateRoomDemand room outlet)).
Proof.
  intro Hq. unfold calculateRoomDemand. cbn [RoomDemand.totalDemand].
  destruct (getBaseFlowRate_cases (MedicalGasOutlet.type outlet)
              (RoomGasRequirements.roomType room))
    as [[rate [-> [Hlo _]]] | [-> _]]; cbn [ToNumber jmul nonNegativeOrNaN].
  - apply Qmult_le_0_compat; [exact Hq | lra].
  - exact I.
Qed.

Lemma roomDemand_plain (room : RoomGasRequirements.t) (outlet : MedicalGasOutlet.t) :
  isInherited (RoomGasRequirements.roomType room) = false ->
  exists total,
    RoomDemand.totalDemand (calculateRoomDemand room outlet) = Finite total
    /\ RoomDemand.peakDemand (calculateRoomDemand room outlet)
       = Finite (total * MedicalGasOutlet.simultaneousFactor outlet).
Proof.
  intro Hplain. unfold calculateRoomDemand.
  cbn [RoomDemand.totalDemand RoomDemand.peakDemand].
  destruct (getBaseFlowRate_plain (MedicalGasOutlet.type outlet) _ Hplain)
    as [rate [-> _]].
  cbn [ToNumber jmul]. eexists. split; reflexivity.
Qed.

Lemma jadd_nonneg (x y : jsnum) :
  nonNegativeOrNaN x -> nonNegativeOrNaN y -> nonNegativeOrNaN (jadd x y).
Proof.
  destruct x, y; cbn [nonNegativeOrNaN jadd]; try tauto. intros; lra.
Qed.

Lemma bumpRoom_nonneg (room : RoomGasRequirements.t) :
  Forall (fun outlet => 0 <= MedicalGasOutlet.quantity outlet)
         (RoomGasRequirements.outlets room) ->
  forall D, (forall g, nonNegativeOrNaN (fst (D g))) ->
            forall g, nonNegativeOrNaN (fst (bumpRoom D room g)).
Proof.
  unfold bumpRoom.
  induction 1 as [| outlet rest Hq _ IH]; intros D HD g.
  - apply HD.
  - cbn [fold_left]. apply IH. intro g'. unfold bumpOutlet.
    destruct (String.eqb _ _); [| apply HD].
    cbn [fst]. apply jadd_nonneg; [apply HD | now apply roomDemand_nonneg].
Qed.

Lemma installedDemand_nonneg (rooms : list RoomGasRequirements.t) (gasType : Gas.t) :
  nonNegativeQuantities rooms -> nonNegativeOrNaN (installedDemand gasType rooms).
Proof.
  unfold installedDemand, demandSums, nonNegativeQuantities.
  intro Hrooms.
  assert (forall D, (forall g, nonNegativeOrNaN (fst (D g))) ->
                    forall g, nonNegativeOrNaN (fst (fold_left bumpRoom rooms D g)))
    as Hfold.
  { induction Hrooms as [| room rest Hroom _ IH]; intros D HD g.
    - apply HD.
    - cbn [fold_left]. apply IH. now apply bumpRoom_nonneg. }
  apply Hfold. intros _. cbn [fst nonNegativeOrNaN]. lra.
Qed.

Lemma bumpRoom_finite (room : RoomGasRequirements.t) :
  isInherited (RoomGasRequirements.roomType room) = false ->
  forall D, (forall g, exists q, fst (D g) = Finite q) ->
            forall g, exists q, fst (bumpRoom D room g) = Finite q.
Proof.
  intro Hplain. unfold bumpRoom.
  induction (RoomGasRequirements.outlets room) as [| outlet rest IH]; intros D HD g.
  - apply HD.
  - cbn [fold_left]. apply IH. intro g'. unfold bumpOutlet.
    destruct (String.eqb _ _); [| apply HD].
    cbn [fst]. destruct (HD g') as [q ->].
    destruct (roomDemand_plain room outlet Hplain) as [total [-> _]].
    eexists. reflexivity.
Qed.

Lemma installedDemand_finite (rooms : list RoomGasRequirements.t) (gasType : Gas.t) :
  plainRoomTypes rooms -> exists q, installedDemand gasType rooms = Finite q.
Proof.
  unfold installedDemand, demandSums, plainRoomTypes.
  intro Hrooms.
  assert (forall D, (forall g, exists q, fst (D g) = Finite q) ->
                    forall g, exists q, fst (fold_left bumpRoom rooms D g) = Finite q)
    as Hfold.
  { induction Hrooms as [| room rest Hroom _ IH]; intros D HD g.
    - apply HD.
    - cbn [fold_left]. apply IH. now apply bumpRoom_finite. }
  apply Hfold. intros _. eexists. reflexivity.
Qed.

(** ** Peak demand *)


(** X26.  For a room list with non-negative outlet quantities in which no
    room type is the name of a member of [Object.prototype], and for each
    of the five gas types, the system's total demand is a non-negative
    rational, its peak demand is the total times the factor of the
    standards table (oxygen and air 0.75, vacuum 0.50, n2o and co2 0.25),
    and the peak demand does not exceed the total demand. *)
Theorem plain_rooms_peak_demand (rooms : list RoomGasRequirements.t)
    (gasType : Gas.t) :
  nonNegativeQuantities rooms ->
  plainRoomTypes rooms ->
  exists system standards total,
    systemOf rooms gasType = Some system
    /\ lookup NFPA99_STANDARDS (Gas.name gasType) = Own standards
    /\ Standards.simultaneousFactor standards = statedFactor gasType
    /\ MedicalGasSystem.totalDemand system = Finite total
    /\ 0 <= total
    /\ MedicalGasSystem.peakDemand system
       = Finite (total * Standards.simultaneousFactor standards)
    /\ jle (MedicalGasSystem.peakDemand system) (MedicalGasSystem.totalDemand system).
Proof.
  intros Hnonneg Hplain.
  destruct (standards_of_gasType gasType) as [standards [Hstd Hfactor]].
  destruct (finalizeSystem_demand gasType (demandSums rooms gasType)) as [Htotal Hpeak].
  destruct (installedDemand_finite rooms gasType Hplain) as [total Hfinite].
  pose proof (installedDemand_nonneg rooms gasType Hnonneg) as Hpos.
  unfold installedDemand in Hfinite, Hpos.
  rewrite Hfinite in Htotal, Hpeak, Hpos. cbn [nonNegativeOrNaN] in Hpos.
  cbn [jmul] in Hpeak.
  eexists; exists standards, total.
  split; [apply systemOf_entry |].
  split; [exact Hstd |]. split; [exact Hfactor |].
  split; [exact Htotal |]. split; [exact Hpos |].
  split; [rewrite Hpeak, Hfactor; reflexivity |].
  unfold jle. rewrite Hpeak, Htotal. apply leb_Finite_true.
  destruct (statedFactor_range gasType) as [_ Hle].
  set (factor := statedFactor gasType) in *. nra.
Qed.

Lemma plain_rooms_peak_demand_witness :
  exists system standards total,
    systemOf [operatingRoom] Gas.vacuum = Some system
    /\ lookup NFPA99_STANDARDS (Gas.name Gas.vacuum) = Own standards
    /\ Standards.simultaneousFactor standards = statedFactor Gas.vacuum
    /\ MedicalGasSystem.totalDemand system = Finite total
    /\ 0 <= total
    /\ MedicalGasSystem.peakDemand system
       = Finite (total * Standards.simultaneousFactor standards)
    /\ jle (MedicalGasSystem.peakDemand system) (MedicalGasSystem.totalDemand system).
Proof.
  apply (plain_rooms_peak_demand [operatingRoom] Gas.vacuum).
  - repeat constructor; unfold Qle; simpl; lia.
  - repeat constructor.
Defined.

(** ** Unrecognised room types *)

(** C7, at the failing input.  The room type ["toString"] has no entry in
    the oxygen catalog, yet [getBaseFlowRate] does not fall back to 5: it
    returns the function inherited under that name, and the demand of
    thirty outlets is NaN instead of 150; the oxygen total of the facility
    is NaN as well. *)
Theorem inherited_room_type_misses_fallback :
  catalogRate OutletGas.oxygen "toString" = None
  /\ getBaseFlowRate OutletGas.oxygen "toString" = Member "toString"
  /\ getBaseFlowRate OutletGas.oxygen "toString" <> Number (Finite 5)
  /\ RoomDemand.totalDemand
       (calculateRoomDemand toStringRoom (outletOf OutletGas.oxygen 30 1)) = NaN
  /\ installedDemand Gas.oxygen [toStringRoom] = NaN.
Proof.
  repeat split; try reflexivity. discriminate.
Qed.

(** X27.  When the room type has no entry in the flow-rate catalog for the
    outlet's gas type and is not the name of a member of
    [Object.prototype], the base flow rate is the fallback 5, the demand of
    the outlet is [quantity * 5], and the accumulation step adds exactly
    that to the total of the outlet's system. *)
Theorem unlisted_room_type_uses_fallback (room : RoomGasRequirements.t)
    (outlet : MedicalGasOutlet.t) :
  catalogRate (MedicalGasOutlet.type outlet) (RoomGasRequirements.roomType room) = None ->
  isInherited (RoomGasRequirements.roomType room) = false ->
  getBaseFlowRate (MedicalGasOutlet.type outlet) (RoomGasRequirements.roomType room)
  = Number (Finite 5)
  /\ RoomDemand.totalDemand (calculateRoomDemand room outlet)
     = Finite (MedicalGasOutlet.quantity outlet * 5)
  /\ (forall systems system,
        Map_get systems (OutletGas.name (MedicalGasOutlet.type outlet)) = Some system ->
        exists system',
          Map_get (addOutlet room systems outlet)
                  (OutletGas.name (MedicalGasOutlet.type outlet)) = Some system'
          /\ MedicalGasSystem.totalDemand system'
             = jadd (MedicalGasSystem.totalDemand system)
                    (Finite (MedicalGasOutlet.quantity outlet * 5))).
Proof.
  intros Hcatalog Hplain.
  assert (getBaseFlowRate (MedicalGasOutlet.type outlet)
            (RoomGasRequirements.roomType room) = Number (Finite 5)) as Hrate.
  { unfold getBaseFlowRate. unfold catalogRate in Hcatalog.
    destruct (Map_get FLOW_RATES (OutletGas.name (MedicalGasOutlet.type outlet)));
      [| reflexivity].
    unfold lookup. rewrite Hcatalog, Hplain. reflexivity. }
  assert (RoomDemand.totalDemand (calculateRoomDemand room outlet)
          = Finite (MedicalGasOutlet.quantity outlet * 5)) as Hdemand
    by (unfold calculateRoomDemand; cbn [RoomDemand.totalDemand];
        rewrite Hrate; reflexivity).
  split; [exact Hrate |]. split; [exact Hdemand |].
  intros systems system Hget.
  unfold addOutlet. rewrite Hget.
  eexists. split; [apply Map_get_set |].
  cbn [MedicalGasSystem.totalDemand MedicalGasSystem.set_totalDemand
       MedicalGasSystem.set_peakDemand].
  now rewrite Hdemand.
Qed.

Lemma unlisted_room_type_uses_fallback_witness :
  RoomDemand.totalDemand
    (calculateRoomDemand dialysisRoom (outletOf OutletGas.oxygen 3 1))
  = Finite (3 * 5).
Proof.
  apply (unlisted_room_type_uses_fallback dialysisRoom (outletOf OutletGas.oxygen 3 1));
    reflexivity.
Defined.

(** Scenario D, end to end: three oxygen outlets in a room of an unlisted
    type give an oxygen total demand of 15. *)
Example dialysisRoom_oxygen_demand :
  exists system,
    systemOf [dialysisRoom] Gas.oxygen = Some system
    /\ same (MedicalGasSystem.totalDemand system) (Finite 15).
Proof. eexists. split; reflexivity. Qed.

(** ** Invalid input *)

(** C3, as the code behaves.  [calculateSystemDemand] validates nothing: for
    every room list, negative quantities and areas included, it returns a
    map holding, for each of the five gas types, a system whose total demand
    is the signed sum of [quantity * base flow rate]; no error is raised. *)
Theorem calculateSystemDemand_never_rejects (rooms : list RoomGasRequirements.t) :
  exists systems,
    calculateSystemDemand_completion rooms = Returns systems
    /\ Forall (fun gasType =>
                 exists system,
                   Map_get systems (Gas.name gasType) = Some system
                   /\ MedicalGasSystem.totalDemand system = installedDemand gasType rooms)
              gasTypes.
Proof.
  exists (calculateSystemDemand rooms). split; [reflexivity |].
  apply Forall_forall. intros gasType _.
  destruct (finalizeSystem_demand gasType (demandSums rooms gasType)) as [Htotal _].
  eexists. split; [apply systemOf_entry | exact Htotal].
Qed.

(** C3, counterexample.  A room with a negative area and two "negative"
    oxygen outlets is accepted: the call returns, and the oxygen system
    carries a total demand of -30. *)
Lemma negative_room_is_accepted :
  hasNegativeInput [negativeRoom] = true
  /\ exists systems system,
       calculateSystemDemand_completion [negativeRoom] = Returns systems
       /\ Map_get systems "oxygen" = Some system
       /\ same (MedicalGasSystem.totalDemand system) (Finite (-30)).
Proof.
  split; [reflexivity |].
  eexists; eexists. split; [reflexivity |]. split; reflexivity.
Qed.

(** ** The per-outlet simultaneous factor *)

Lemma finalizeSystem_total_only (gasType : Gas.t) (d d' : jsnum * jsnum) :
  fst d = fst d' ->
  finalizeSystem (Gas.name gasType) (withDemand gasType d)
  = finalizeSystem (Gas.name gasType) (withDemand gasType d').
Proof.
  destruct d as [t p], d' as [t' p']. cbn [fst]. intros <-.
  destruct gasType; reflexivity.
Qed.

Lemma bumpOutlet_erase (room : RoomGasRequirements.t) (D D' : Gas.t -> jsnum * jsnum)
    (outlet : MedicalGasOutlet.t) :
  (forall g, fst (D g) = fst (D' g)) ->
  forall g, fst (bumpOutlet room D outlet g)
            = fst (bumpOutlet (eraseFactors room) D' (eraseFactor outlet) g).
Proof.
  intros HD g. unfold bumpOutlet.
  cbn [eraseFactor MedicalGasOutlet.type].
  destruct (String.eqb (Gas.name g) _); [| apply HD].
  cbn [fst]. rewrite HD. reflexivity.
Qed.

Lemma bumpRoom_erase (room : RoomGasRequirements.t) :
  forall D D' : Gas.t -> jsnum * jsnum,
    (forall g, fst (D g) = fst (D' g)) ->
    forall g, fst (bumpRoom D room g) = fst (bumpRoom D' (eraseFactors room) g).
Proof.
  unfold bumpRoom.
  cbn [eraseFactors RoomGasRequirements.outlets].
  change (RoomGasRequirements.mk _ _ _ _ _ _ _ _ _ _) with (eraseFactors room).
  induction (RoomGasRequirements.outlets room) as [| outlet rest IH]; intros D D' HD g.
  - apply HD.
  - cbn [map fold_left]. apply IH. now apply bumpOutlet_erase.
Qed.

Lemma demandSums_erase (rooms : list RoomGasRequirements.t) (gasType : Gas.t) :
  fst (demandSums rooms gasType) = fst (demandSums (map eraseFactors rooms) gasType).
Proof.
  unfold demandSums.
  assert (forall D D' : Gas.t -> jsnum * jsnum,
            (forall g, fst (D g) = fst (D' g)) ->
            forall g, fst (fold_left bumpRoom rooms D g)
                      = fst (fold_left bumpRoom (map eraseFactors rooms) D' g)) as Hfold.
  { induction rooms as [| room rest IH]; intros D D' HD g.
    - apply HD.
    - cbn [map fold_left]. apply IH. now apply bumpRoom_erase. }
  now apply Hfold.
Qed.

Lemma calculateSystemDemand_erase (rooms : list RoomGasRequirements.t) :
  calculateSystemDemand rooms = calculateSystemDemand (map eraseFactors rooms).
Proof.
  rewrite !calculateSystemDemand_entries.
  apply map_ext. intro gasType. f_equal.
  apply finalizeSystem_total_only, demandSums_erase.
Qed.

Lemma totalOutlets_erase (rooms : list RoomGasRequirements.t) :
  forall start : Q,
    fold_left
      (fun sum room =>
         sum + fold_left (fun outletSum outlet =>
                            outletSum + MedicalGasOutlet.quantity outlet)
                         (RoomGasRequirements.outlets room) 0)
      (map eraseFactors rooms) start
    = fold_left
        (fun sum room =>
           sum + fold_left (fun outletSum outlet =>
                              outletSum + MedicalGasOutlet.quantity outlet)
                           (RoomGasRequirements.outlets room) 0)
        rooms start.
Proof.
  induction rooms as [| room rest IH]; intro start.
  - reflexivity.
  - cbn [map fold_left]. rewrite IH. do 2 f_equal.
    cbn [eraseFactors RoomGasRequirements.outlets].
    generalize (0 : Q).
    induction (RoomGasRequirements.outlets room) as [| outlet more IHo]; intro acc.
    + reflexivity.
    + cbn [map fold_left]. rewrite IHo. reflexivity.
Qed.

Lemma generateEngineeringReport_erase (rooms : list RoomGasRequirements.t) :
  generateEngineeringReport rooms = generateEngineeringReport (map eraseFactors rooms).
Proof.
  unfold generateEngineeringReport.
  rewrite <- calculateSystemDemand_erase, length_map, totalOutlets_erase.
  reflexivity.
Qed.

(** C9.  Two room lists that differ at most in the [simultaneousFactor] of
    their outlets give the same map of systems and the same report. *)
Theorem simultaneousFactor_has_no_influence (rooms1 rooms2 : list RoomGasRequirements.t) :
  sameExceptFactor rooms1 rooms2 ->
  calculateSystemDemand rooms1 = calculateSystemDemand rooms2
  /\ generateEngineeringReport rooms1 = generateEngineeringReport rooms2.
Proof.
  unfold sameExceptFactor. intro Hsame. split.
  - rewrite (calculateSystemDemand_erase rooms1), (calculateSystemDemand_erase rooms2).
    now rewrite Hsame.
  - rewrite (generateEngineeringReport_erase rooms1),
            (generateEngineeringReport_erase rooms2).
    now rewrite Hsame.
Qed.

Lemma simultaneousFactor_has_no_influence_witness :
  calculateSystemDemand
    [roomOf "ICU" 250 [outletOf OutletGas.oxygen 2 0.2; outletOf OutletGas.air 1 1]]
  = calculateSystemDemand
      [roomOf "ICU" 250 [outletOf OutletGas.oxygen 2 0.9; outletOf OutletGas.air 1 0]]
  /\ generateEngineeringReport
       [roomOf "ICU" 250 [outletOf OutletGas.oxygen 2 0.2; outletOf OutletGas.air 1 1]]
     = generateEngineeringReport
         [roomOf "ICU" 250 [outletOf OutletGas.oxygen 2 0.9; outletOf OutletGas.air 1 0]].
Proof.
  apply (simultaneousFactor_has_no_influence
           [roomOf "ICU" 250 [outletOf OutletGas.oxygen 2 0.2; outletOf OutletGas.air 1 1]]
           [roomOf "ICU" 250 [outletOf OutletGas.oxygen 2 0.9; outletOf OutletGas.air 1 0]]).
  reflexivity.
Defined.

(** The intermediate peak sum does depend on the outlet factor; it is the
    overwrite in the final loop that removes the dependence. *)
Example intermediate_peak_depends_on_factor :
  same (snd (demandSums [roomOf "ICU" 250 [outletOf OutletGas.oxygen 2 1]] Gas.oxygen))
       (Finite 16)
  /\ same (snd (demandSums [roomOf "ICU" 250 [outletOf OutletGas.oxygen 2 0]] Gas.oxygen))
          (Finite 0).
Proof. split; reflexivity. Qed.

(** ** Compliance of the systems the pipeline builds *)

(** What the compliance checks read from a finalised system does not depend
    on the demand: pressure from the standards table, the fixed backup
    recommendation, the four alarm features, an untouched distribution. *)
Lemma finalizeSystem_invariants (gasType : Gas.t) (d : jsnum * jsnum) :
  let system := finalizeSystem (Gas.name gasType) (withDemand gasType d) in
  (exists standards,
     lookup NFPA99_STANDARDS (Gas.name gasType) = Own standards
     /\ SystemPressureRequirements.operatingPressure
          (MedicalGasSystem.systemPressure system)
        = Math_abs (Finite (Standards.operatingPressure standards)))
  /\ Equipment.backupSupply (MedicalGasSystem.equipment system) <> ""
  /\ Equipment.alarms (MedicalGasSystem.equipment system) = alarmFeatures
  /\ MedicalGasSystem.distribution system
     = Distribution.mk [] [] (Finite 0) (Finite 0)
  /\ MedicalGasSystem.gasType system = gasType
  /\ map ComplianceCheck.status (MedicalGasSystem.compliance system)
     = [compliant; compliant; compliant; compliant].
Proof.
  destruct gasType; cbv zeta;
    (split; [eexists; split; reflexivity |]);
    (split; [discriminate |]);
    repeat split; reflexivity.
Qed.

Lemma all_checks_compliant (rooms : list RoomGasRequirements.t) :
  map ComplianceCheck.status
      (flat_map MedicalGasSystem.compliance (Map_values (calculateSystemDemand rooms)))
  = repeat compliant 20.
Proof.
  rewrite calculateSystemDemand_entries.
  unfold Map_values. rewrite map_map. cbn [snd].
  unfold gasTypes. cbn [map flat_map].
  rewrite !map_app.
  assert (forall g,
            map ComplianceCheck.status
                (MedicalGasSystem.compliance
                   (finalizeSystem (Gas.name g) (withDemand g (demandSums rooms g))))
            = repeat compliant 4) as Hfour
    by (intro g; apply (finalizeSystem_invariants g (demandSums rooms g))).
  rewrite !Hfour. reflexivity.
Qed.

Lemma filter_isCompliant (checks : list ComplianceCheck.t) (n : nat) :
  map ComplianceCheck.status checks = repeat compliant n ->
  filter isCompliant checks = checks /\ List.length checks = n.
Proof.
  revert n. induction checks as [| c rest IH]; intros [| n] Hmap;
    try discriminate; [split; reflexivity |].
  cbn [map repeat] in Hmap. injection Hmap as Hc Hrest.
  destruct (IH n Hrest) as [Hfilter Hlen].
  cbn [filter List.length]. unfold isCompliant at 1. rewrite Hc, Hfilter, Hlen.
  split; reflexivity.
Qed.

(** C10.  For every room list, the empty one included, every compliance
    check of every system is compliant: the operating pressure is the
    absolute value of the standards-table pressure it is compared with, the
    backup supply is a non-empty recommendation, the alarm list is the fixed
    four-element list and the distribution's total pressure drop is 0.  The
    report holds 20 checks, all compliant, and its compliance score is 100. *)
Theorem pipeline_always_compliant (rooms : list RoomGasRequirements.t) :
  Forall (fun entry =>
            let gasType := fst entry in
            let system := snd entry in
            (exists standards,
               lookup NFPA99_STANDARDS gasType = Own standards
               /\ SystemPressureRequirements.operatingPressure
                    (MedicalGasSystem.systemPressure system)
                  = Math_abs (Finite (Standards.operatingPressure standards)))
            /\ Equipment.backupSupply (MedicalGasSystem.equipment system) <> ""
            /\ Equipment.alarms (MedicalGasSystem.equipment system) = alarmFeatures
            /\ (3 <= List.length alarmFeatures)%nat
            /\ jle (Distribution.totalPressureDrop (MedicalGasSystem.distribution system))
                   (Finite 5)
            /\ Forall (fun check => ComplianceCheck.status check = compliant)
                      (MedicalGasSystem.compliance system))
         (calculateSystemDemand rooms)
  /\ Forall (fun check => ComplianceCheck.status check = compliant)
            (EngineeringReport.compliance (generateEngineeringReport rooms))
  /\ List.length (EngineeringReport.compliance (generateEngineeringReport rooms)) = 20%nat
  /\ exists score,
       Summary.complianceScore (EngineeringReport.summary (generateEngineeringReport rooms))
       = Finite score
       /\ score == 100.
Proof.
  pose proof (all_checks_compliant rooms) as Hall.
  destruct (filter_isCompliant _ _ Hall) as [Hfilter Hlen].
  split; [| split; [| split]].
  - rewrite calculateSystemDemand_entries.
    apply Forall_forall. intros [gasType system] Hentry.
    apply in_map_iff in Hentry. destruct Hentry as [g [Heq _]].
    injection Heq as <- <-. cbn [fst snd].
    destruct (finalizeSystem_invariants g (demandSums rooms g))
      as [Hpressure [Hbackup [Halarms [Hdist [_ Hstatus]]]]].
    split; [exact Hpressure |].
    split; [exact Hbackup |].
    split; [exact Halarms |].
    split; [cbn; lia |].
    split; [rewrite Hdist; reflexivity |].
    apply Forall_forall. intros check Hin.
    apply (in_map ComplianceCheck.status) in Hin. rewrite Hstatus in Hin.
    cbn [In] in Hin. intuition congruence.
  - unfold generateEngineeringReport. cbn [EngineeringReport.compliance].
    apply Forall_forall. intros check Hin.
    apply (in_map ComplianceCheck.status) in Hin. rewrite Hall in Hin.
    now apply repeat_spec in Hin.
  - exact Hlen.
  - unfold generateEngineeringReport.
    cbn [EngineeringReport.summary Summary.complianceScore].
    rewrite Hfilter, Hlen.
    eexists. split; reflexivity.
Qed.

(** ** The empty facility *)

(** C5, as the code behaves.  For the empty room list the report still holds
    the five systems: each has total and peak demand zero and no pipe
    calculations; the 20 compliance checks are all compliant, so the score
    is the finite number 100 and its divisor is 20, not zero. *)
Theorem empty_facility_report :
  Forall (fun system =>
            same (MedicalGasSystem.totalDemand system) (Finite 0)
            /\ same (MedicalGasSystem.peakDemand system) (Finite 0)
            /\ Distribution.mainLines (MedicalGasSystem.distribution system) = []
            /\ Distribution.branchLines (MedicalGasSystem.distribution system) = [])
         (Map_values (EngineeringReport.systems (generateEngineeringReport [])))
  /\ Map_keys (EngineeringReport.systems (generateEngineeringReport []))
     = map Gas.name gasTypes
  /\ List.length (EngineeringReport.compliance (generateEngineeringReport [])) = 20%nat
  /\ exists score,
       Summary.complianceScore (EngineeringReport.summary (generateEngineeringReport []))
       = Finite score
       /\ score == 100.
Proof.
  split; [| split; [reflexivity | split; [reflexivity |]]].
  - repeat constructor; reflexivity.
  - eexists. split; reflexivity.
Qed.

(** C5, counterexample.  The compliance score of the empty facility is
    neither absent nor undefined: it is a finite number equal to 100. *)
Lemma empty_facility_score_is_defined :
  Summary.complianceScore (EngineeringReport.summary (generateEngineeringReport []))
  = Finite (2000 # 20)
  /\ Summary.complianceScore (EngineeringReport.summary (generateEngineeringReport []))
     <> NaN
  /\ EngineeringReport.compliance (generateEngineeringReport []) <> [].
Proof.
  split; [reflexivity |]. split; discriminate.
Qed.

(** ** Distribution of the systems in a report *)

(** C4, as the code behaves.  [generateEngineeringReport] never runs the pipe
    sizer: in every system of every report the main and branch lines are
    empty, and the total length and total pressure drop are 0, which is the
    sum over those (empty) lists. *)
Theorem report_distribution_is_empty (rooms : list RoomGasRequirements.t) :
  Forall (fun system =>
            let distribution := MedicalGasSystem.distribution system in
            let pipes :=
              Distribution.mainLines distribution ++ Distribution.branchLines distribution in
            Distribution.mainLines distribution = []
            /\ Distribution.branchLines distribution = []
            /\ Distribution.totalLength distribution = sumLength pipes
            /\ Distribution.totalPressureDrop distribution = sumPressureDrop pipes)
         (Map_values (EngineeringReport.systems (generateEngineeringReport rooms))).
Proof.
  unfold generateEngineeringReport. cbn [EngineeringReport.systems].
  rewrite calculateSystemDemand_entries.
  unfold Map_values. rewrite map_map. cbn [snd].
  apply Forall_forall. intros system Hin.
  apply in_map_iff in Hin. destruct Hin as [g [<- _]].
  destruct (finalizeSystem_invariants g (demandSums rooms g))
    as [_ [_ [_ [Hdist _]]]].
  cbv zeta. rewrite Hdist. repeat split; reflexivity.
Qed.

(** C4, counterexample.  The operating room of scenario A gives oxygen a
    total demand of 90, yet the oxygen system of the report has neither
    main-line nor branch-line pipe calculations. *)
Lemma report_has_no_pipe_calculations :
  exists system,
    Map_get (EngineeringReport.systems (generateEngineeringReport [operatingRoom]))
            "oxygen" = Some system
    /\ same (MedicalGasSystem.totalDemand system) (Finite 90)
    /\ jlt (Finite 0) (MedicalGasSystem.totalDemand system)
    /\ Distribution.mainLines (MedicalGasSystem.distribution system) = []
    /\ Distribution.branchLines (MedicalGasSystem.distribution system) = [].
Proof.
  eexists. split; [reflexivity |]. repeat split; reflexivity.
Qed.

(** ** The pressure-drop rule *)

(** C6.  Among the checks of any system exactly one cites Section 5.1.3.6,
    and it is the last; it is compliant when the total pressure drop is at
    most 5, a warning when it exceeds 5, and never non-compliant.  A total
    pressure drop that is NaN compares as not above 5 and is compliant. *)
Theorem pressure_drop_check_two_way (system : MedicalGasSystem.t) (gasType : string) :
  let checks := performComplianceChecks system gasType in
  let drop := Distribution.totalPressureDrop (MedicalGasSystem.distribution system) in
  last checks (backupCheck system) = pressureDropCheck system
  /\ filter (fun check =>
               String.eqb (ComplianceCheck.standard check) "NFPA 99-2021 Section 5.1.3.6")
            checks
     = [pressureDropCheck system]
  /\ (jle drop (Finite 5) -> ComplianceCheck.status (pressureDropCheck system) = compliant)
  /\ (jlt (Finite 5) drop -> ComplianceCheck.status (pressureDropCheck system) = warning)
  /\ (drop = NaN -> ComplianceCheck.status (pressureDropCheck system) = compliant)
  /\ ComplianceCheck.status (pressureDropCheck system) <> non_compliant.
Proof.
  cbv zeta.
  assert (ComplianceCheck.standard (pressureDropCheck system)
          = "NFPA 99-2021 Section 5.1.3.6") as Hstd
    by (unfold pressureDropCheck; destruct (gtb _ (Finite 5)); reflexivity).
  split; [| split].
  - unfold performComplianceChecks.
    destruct (found (lookup NFPA99_STANDARDS gasType)); reflexivity.
  - unfold performComplianceChecks.
    destruct (found (lookup NFPA99_STANDARDS gasType));
      cbn [app filter pressureCheck backupCheck alarmCheck ComplianceCheck.standard];
      rewrite Hstd; reflexivity.
  - unfold pressureDropCheck, jle, jlt.
    destruct (gtb (Distribution.totalPressureDrop _) (Finite 5)) eqn:Hgt;
      cbn [ComplianceCheck.status].
    + split; [intro Hle; apply gtb_leb in Hgt; congruence |].
      split; [reflexivity |].
      split; [intro Hnan; rewrite Hnan in Hgt; discriminate | discriminate].
    + split; [reflexivity |].
      split; [intro Habs; congruence |].
      split; [reflexivity | discriminate].
Qed.

Lemma pressure_drop_check_two_way_witness :
  ComplianceCheck.status (pressureDropCheck (initialSystem Gas.oxygen)) = compliant.
Proof.
  destruct (pressure_drop_check_two_way (initialSystem Gas.oxygen) "oxygen")
    as [_ [_ [Hcompliant _]]].
  apply Hcompliant. reflexivity.
Defined.

(** ** Cost and redundancy *)







(** ** Pipe sizing *)

(** The lemmas hold for any [Math.log10] and [Math.pow]: these only feed the
    pressure drop. *)

Lemma sizingLoop_first_fit (Math_log10 : jsnum -> jsnum)
    (Math_pow : jsnum -> jsnum -> jsnum)
    (flowRate length : Q) (material : string) (roughness : value)
    (sizes : list Q) :
  match sizingLoop Math_log10 Math_pow flowRate length material roughness sizes with
  | Some result =>
      exists before diameter after,
        sizes = before ++ diameter :: after
        /\ result = pipeOf Math_log10 Math_pow flowRate length material roughness diameter
        /\ velocityAt flowRate diameter <= 25
        /\ Forall (fun d => 25 < velocityAt flowRate d) before
  | None => Forall (fun d => 25 < velocityAt flowRate d) sizes
  end.
Proof.
  induction sizes as [| diameter rest IH]; cbn [sizingLoop].
  - constructor.
  - change (maxVelocity "oxygen") with 25.
    destruct (Qle_bool (velocityAt flowRate diameter) 25) eqn:Hfit.
    + exists [], diameter, rest.
      repeat split; [now apply Qle_bool_iff | constructor].
    + assert (25 < velocityAt flowRate diameter) as Hfast.
      { apply Qnot_le_lt. intro Hle. apply Qle_bool_iff in Hle. congruence. }
      destruct (sizingLoop Math_log10 Math_pow flowRate length material roughness rest).
      * destruct IH as [before [d [after [Hsizes [Hres [Hle Hbefore]]]]]].
        exists (diameter :: before), d, after.
        repeat split; [now rewrite Hsizes | exact Hres | exact Hle |].
        now constructor.
      * now constructor.
Qed.

(** What [calculatePipeSizing] does for every call: the diameter is a
    standard size, the velocity is the one of that diameter, the ceiling
    applied is 25 ft/s whatever the gas, every smaller standard size
    exceeds 25 ft/s, and when the returned velocity itself exceeds 25 ft/s
    the diameter is 8. *)
Lemma calculatePipeSizing_first_fit_at_25 (Math_log10 : jsnum -> jsnum)
    (Math_pow : jsnum -> jsnum -> jsnum) (flowRate pressure length : Q)
    (material : string) :
  let result := calculatePipeSizing Math_log10 Math_pow flowRate pressure length material in
  In (PipeCalculation.diameter result) standardSizes
  /\ PipeCalculation.velocity result = velocityAt flowRate (PipeCalculation.diameter result)
  /\ PipeCalculation.flowRate result = flowRate
  /\ PipeCalculation.length result = length
  /\ (forall d, In d standardSizes -> d < PipeCalculation.diameter result ->
                25 < velocityAt flowRate d)
  /\ (25 < PipeCalculation.velocity result ->
      PipeCalculation.diameter result = 8
      /\ Forall (fun d => 25 < velocityAt flowRate d) standardSizes).
Proof.
  cbv zeta. unfold calculatePipeSizing.
  set (roughness := or_default (entry (lookup PIPE_ROUGHNESS material)) 0.000015).
  pose proof (sizingLoop_first_fit Math_log10 Math_pow
                flowRate length material roughness standardSizes)
    as Hloop.
  destruct (sizingLoop Math_log10 Math_pow flowRate length material roughness standardSizes)
    as [result |].
  - destruct Hloop as [before [diameter [after [Hsizes [-> [Hle Hbefore]]]]]].
    cbn [pipeOf PipeCalculation.diameter PipeCalculation.velocity
         PipeCalculation.flowRate PipeCalculation.length].
    split; [rewrite Hsizes; apply in_or_app; right; left; reflexivity |].
    split; [reflexivity |]. split; [reflexivity |]. split; [reflexivity |].
    split.
    + intros d Hin Hsmaller.
      rewrite Hsizes in Hin. apply in_app_or in Hin.
      destruct Hin as [Hin | Hin].
      * rewrite Forall_forall in Hbefore. now apply Hbefore.
      * exfalso.
        assert (Forall (fun d' => diameter <= d') (diameter :: after)) as Hsorted.
        { clear - Hsizes. unfold standardSizes in Hsizes.
          repeat (destruct before as [| ? before];
                  [ injection Hsizes as <- <-;
                    repeat constructor; unfold Qle; cbn; lia
                  | injection Hsizes as _ Hsizes ]).
          destruct before; discriminate. }
        rewrite Forall_forall in Hsorted. specialize (Hsorted d Hin). lra.
    + intro Hfast. lra.
  - cbn [pipeOf PipeCalculation.diameter PipeCalculation.velocity
         PipeCalculation.flowRate PipeCalculation.length].
    split; [unfold standardSizes; cbn [In]; tauto |].
    split; [reflexivity |]. split; [reflexivity |]. split; [reflexivity |].
    split.
    + intros d Hin _. rewrite Forall_forall in Hloop. now apply Hloop.
    + intros _. split; [reflexivity | exact Hloop].
Qed.

(** C2, at the failing input.  A run carrying 4 CFM is sized to 0.75 in,
    because the loop compares with [maxVelocity "oxygen"] = 25 ft/s; under
    the vacuum ceiling [maxVelocity "vacuum"] = 5000/60 ft/s the smaller
    standard size 0.5 in would already do. *)
Theorem calculatePipeSizing_ignores_vacuum_ceiling
    (Math_log10 : jsnum -> jsnum) (Math_pow : jsnum -> jsnum -> jsnum) :
  let result := calculatePipeSizing Math_log10 Math_pow 4 15 100 "copper" in
  PipeCalculation.diameter result = 0.75
  /\ PipeCalculation.velocity result <= maxVelocity "oxygen"
  /\ In 0.5 standardSizes
  /\ 0.5 < PipeCalculation.diameter result
  /\ maxVelocity "oxygen" < velocityAt 4 0.5
  /\ velocityAt 4 0.5 <= maxVelocity "vacuum".
Proof.
  cbv zeta.
  assert (calculatePipeSizing Math_log10 Math_pow 4 15 100 "copper"
          = pipeOf Math_log10 Math_pow 4 100 "copper" (Number (Finite 0.000005)) 0.75)
    as -> by reflexivity.
  cbn [pipeOf PipeCalculation.diameter PipeCalculation.velocity].
  split; [reflexivity |].
  split; [vm_compute; discriminate |].
  split; [unfold standardSizes; cbn [In]; tauto |].
  split; [reflexivity |].
  split; [reflexivity |].
  vm_compute; discriminate.
Qed.

(** * Further properties of the service *)

(** ** System pressure requirements *)

Lemma NFPA99_STANDARDS_bracketed :
  Forall (fun entry =>
            (fun standards =>
               0 < Qabs (Standards.lowPressureAlarm standards) - 3
               /\ Qabs (Standards.lowPressureAlarm standards)
                  < Qabs (Standards.operatingPressure standards)
               /\ Qabs (Standards.operatingPressure standards)
                  < Qabs (Standards.highPressureAlarm standards))
              (snd entry))
         NFPA99_STANDARDS.
Proof.
  unfold NFPA99_STANDARDS. repeat constructor.
Qed.

(** The own keys of the standards table are the five gas types; none of
    them is the name of a member of [Object.prototype]. *)
Lemma NFPA99_STANDARDS_keys (gasType : string) :
  Map_get NFPA99_STANDARDS gasType <> None
  <-> In gasType (map Gas.name gasTypes).
Proof.
  unfold NFPA99_STANDARDS, gasTypes. cbn [Map_get map Gas.name In].
  repeat match goal with
         | |- context [String.eqb ?a gasType] =>
             destruct (String.eqb_spec a gasType); [split; [tauto | discriminate] |]
         end.
  split; [congruence | intuition congruence].
Qed.

Lemma NFPA99_STANDARDS_inherited (gasType : string) :
  isInherited gasType = true ->
  lookup NFPA99_STANDARDS gasType = Inherited gasType.
Proof.
  intro Hinh. unfold lookup.
  destruct (Map_get NFPA99_STANDARDS gasType) as [standards |] eqn:Hget;
    [| now rewrite Hinh].
  exfalso.
  assert (In gasType (map Gas.name gasTypes)) as Hin
    by (apply NFPA99_STANDARDS_keys; congruence).
  cbn [gasTypes map Gas.name In] in Hin.
  destruct Hin as [<- | [<- | [<- | [<- | [<- | []]]]]]; discriminate.
Qed.

(** X1.  For every gas-type string that is not the name of a member of
    [Object.prototype], listed in the standards table or not, the pressure
    requirements are finite and ordered
    [0 < switchover < low alarm < operating pressure < high alarm], and the
    switchover point lies 3 below the low alarm.  For a name such as
    ["constructor"] the table lookup finds the inherited member, the default
    branch is skipped and all four pressures are NaN.  In every case the
    backup capacity is 100 and the redundancy level is dual. *)
Theorem getSystemPressureRequirements_ordered (gasType : string) :
  let requirements := getSystemPressureRequirements gasType in
  let alarms := SystemPressureRequirements.alarmSetPoints requirements in
  (isInherited gasType = false ->
   exists switchover low operating high,
     AlarmSetPoints.switchover alarms = Finite switchover
     /\ AlarmSetPoints.lowPressure alarms = Finite low
     /\ SystemPressureRequirements.operatingPressure requirements = Finite operating
     /\ AlarmSetPoints.highPressure alarms = Finite high
     /\ 0 < switchover /\ switchover == low - 3 /\ low < operating /\ operating < high)
  /\ (isInherited gasType = true ->
      AlarmSetPoints.switchover alarms = NaN
      /\ AlarmSetPoints.lowPressure alarms = NaN
      /\ SystemPressureRequirements.operatingPressure requirements = NaN
      /\ AlarmSetPoints.highPressure alarms = NaN)
  /\ SystemPressureRequirements.backupCapacity requirements = Finite 100
  /\ SystemPressureRequirements.redundancyLevel requirements = dual.
Proof.
  cbv zeta. split; [| split].
  - intro Hplain. unfold getSystemPressureRequirements, lookup.
    destruct (Map_get NFPA99_STANDARDS gasType) as [standards |] eqn:Hstd.
    + pose proof (Map_get_Forall
                    (fun standards =>
                       0 < Qabs (Standards.lowPressureAlarm standards) - 3
                       /\ Qabs (Standards.lowPressureAlarm standards)
                          < Qabs (Standards.operatingPressure standards)
                       /\ Qabs (Standards.operatingPressure standards)
                          < Qabs (Standards.highPressureAlarm standards))
                    _ _ _ NFPA99_STANDARDS_bracketed Hstd) as Hb.
      cbv beta in Hb. destruct Hb as [Hsw [Hlow Hhigh]].
      cbn [found negb field ToNumber Math_abs jsub jadd jneg
           SystemPressureRequirements.alarmSetPoints AlarmSetPoints.switchover
           AlarmSetPoints.lowPressure AlarmSetPoints.highPressure
           SystemPressureRequirements.operatingPressure].
      do 4 eexists. do 4 (split; [reflexivity |]).
      split; [unfold Qminus in Hsw; exact Hsw |].
      split; [reflexivity |]. split; assumption.
    + rewrite Hplain.
      cbn [found negb SystemPressureRequirements.alarmSetPoints
           AlarmSetPoints.switchover AlarmSetPoints.lowPressure
           AlarmSetPoints.highPressure SystemPressureRequirements.operatingPressure].
      do 4 eexists. do 4 (split; [reflexivity |]).
      repeat split; reflexivity.
  - intro Hinh. unfold getSystemPressureRequirements.
    rewrite (NFPA99_STANDARDS_inherited gasType Hinh).
    repeat split; reflexivity.
  - unfold getSystemPressureRequirements.
    destruct (negb (found (lookup NFPA99_STANDARDS gasType))); split; reflexivity.
Qed.

Lemma getSystemPressureRequirements_ordered_witness :
  SystemPressureRequirements.operatingPressure (getSystemPressureRequirements "constructor")
  = NaN
  /\ exists operating,
       SystemPressureRequirements.operatingPressure (getSystemPressureRequirements "helium")
       = Finite operating.
Proof.
  split.
  - destruct (getSystemPressureRequirements_ordered "constructor")
      as [_ [Hinherited _]].
    destruct (Hinherited eq_refl) as [_ [_ [Hoperating _]]]. exact Hoperating.
  - destruct (getSystemPressureRequirements_ordered "helium") as [Hplain _].
    destruct (Hplain eq_refl) as [_ [_ [operating [_ [_ [_ [Hoperating _]]]]]]].
    exists operating. exact Hoperating.
Defined.

(** ** Equipment requirements *)

Lemma getBackupSupplyRecommendation_nonempty (gasType : string) (demand : jsnum) :
  getBackupSupplyRecommendation gasType demand <> "".
Proof.
  unfold getBackupSupplyRecommendation.
  repeat match goal with |- context [if ?b then _ else _] => destruct b end;
    discriminate.
Qed.

Lemma getPrimarySupplyRecommendation_nonempty (gasType : string) (demand : jsnum) :
  getPrimarySupplyRecommendation gasType demand <> "".
Proof.
  unfold getPrimarySupplyRecommendation.
  repeat match goal with |- context [if ?b then _ else _] => destruct b end;
    discriminate.
Qed.

Lemma Qceiling_bounds (x : Q) :
  x <= inject_Z (Qceiling x) /\ inject_Z (Qceiling x) < x + 1.
Proof.
  split.
  - apply Qle_ceiling.
  - pose proof (Qceiling_lt x) as Hlt.
    unfold Z.sub in Hlt. rewrite inject_Z_plus, inject_Z_opp in Hlt.
    change (inject_Z 1) with 1 in Hlt. lra.
Qed.

(** X2.  [calculateEquipmentRequirements] provides a whole number of
    regulators, enough for the peak demand at 50 SCFM each and not one more;
    one manifold up to a peak of 100 and two above; non-empty primary and
    backup recommendations and the four alarm features.  A peak demand that
    is NaN gives NaN regulators and one manifold.  The gas type, the demand,
    the pressure requirements and the distribution are left as they were. *)
Theorem calculateEquipmentRequirements_sizing (system : MedicalGasSystem.t) :
  let equipped := calculateEquipmentRequirements system in
  let equipment := MedicalGasSystem.equipment equipped in
  let peak := MedicalGasSystem.peakDemand system in
  (forall p, peak = Finite p ->
             exists count : Z,
               Equipment.regulators equipment = Finite (inject_Z count)
               /\ p <= 50 * inject_Z count
               /\ 50 * inject_Z count < p + 50)
  /\ (peak = NaN ->
      Equipment.regulators equipment = NaN
      /\ Equipment.manifolds equipment = Finite 1)
  /\ (jle peak (Finite 100) -> Equipment.manifolds equipment = Finite 1)
  /\ (jlt (Finite 100) peak -> Equipment.manifolds equipment = Finite 2)
  /\ Equipment.primarySupply equipment <> ""
  /\ Equipment.backupSupply equipment <> ""
  /\ Equipment.alarms equipment = alarmFeatures
  /\ List.length (Equipment.alarms equipment) = 4%nat
  /\ MedicalGasSystem.gasType equipped = MedicalGasSystem.gasType system
  /\ MedicalGasSystem.totalDemand equipped = MedicalGasSystem.totalDemand system
  /\ MedicalGasSystem.peakDemand equipped = peak
  /\ MedicalGasSystem.systemPressure equipped = MedicalGasSystem.systemPressure system
  /\ MedicalGasSystem.distribution equipped = MedicalGasSystem.distribution system.
Proof.
  cbv zeta. unfold calculateEquipmentRequirements.
  cbn [MedicalGasSystem.equipment MedicalGasSystem.set_equipment
       Equipment.regulators Equipment.manifolds Equipment.primarySupply
       Equipment.backupSupply Equipment.alarms MedicalGasSystem.gasType
       MedicalGasSystem.totalDemand MedicalGasSystem.peakDemand
       MedicalGasSystem.systemPressure MedicalGasSystem.distribution].
  set (peak := MedicalGasSystem.peakDemand system).
  split.
  { intros p ->. exists (Qceiling (p / 50)).
    destruct (Qceiling_bounds (p / 50)) as [Hlo Hhi].
    assert (p / 50 * 50 == p) as Hdiv by field.
    split; [reflexivity |]. split; lra. }
  split; [intros ->; split; reflexivity |].
  split; [unfold jle; intro Hle;
          destruct (gtb peak (Finite 100)) eqn:Hgt;
          [apply gtb_leb in Hgt; congruence | reflexivity] |].
  split; [unfold jlt; intros ->; reflexivity |].
  split; [apply getPrimarySupplyRecommendation_nonempty |].
  split; [apply getBackupSupplyRecommendation_nonempty |].
  repeat split; reflexivity.
Qed.

Lemma calculateEquipmentRequirements_sizing_witness :
  (exists count : Z,
     Equipment.regulators
       (MedicalGasSystem.equipment
          (calculateEquipmentRequirements
             (MedicalGasSystem.set_peakDemand (initialSystem Gas.air) (Finite 120))))
     = Finite (inject_Z count)
     /\ 120 <= 50 * inject_Z count
     /\ 50 * inject_Z count < 120 + 50)
  /\ Equipment.manifolds
       (MedicalGasSystem.equipment
          (calculateEquipmentRequirements
             (MedicalGasSystem.set_peakDemand (initialSystem Gas.air) (Finite 120))))
     = Finite 2.
Proof.
  destruct (calculateEquipmentRequirements_sizing
              (MedicalGasSystem.set_peakDemand (initialSystem Gas.air) (Finite 120)))
    as [Hregulators [_ [_ [Hmanifolds _]]]].
  split.
  - apply Hregulators. reflexivity.
  - apply Hmanifolds. reflexivity.
Defined.

(** ** Compliance checks in general *)

(** X3.  The checks come in a fixed order of citations.  The operating
    pressure check is made whenever the table lookup yields something: for
    the five gas types, and also for a name inherited from
    [Object.prototype] such as ["constructor"]; any other gas type gets
    three checks instead of four. *)
Theorem performComplianceChecks_citations (system : MedicalGasSystem.t)
    (gasType : string) :
  map ComplianceCheck.standard (performComplianceChecks system gasType)
  = (if found (lookup NFPA99_STANDARDS gasType)
     then [ "NFPA 99-2021 Section 5.1.3.2" ]
     else [])
    ++ [ "NFPA 99-2021 Section 5.1.11"; "NFPA 99-2021 Section 5.1.12";
         "NFPA 99-2021 Section 5.1.3.6" ]
  /\ (found (lookup NFPA99_STANDARDS gasType) = true
      <-> In gasType (map Gas.name gasTypes) \/ isInherited gasType = true).
Proof.
  split.
  - unfold performComplianceChecks.
    assert (ComplianceCheck.standard (pressureDropCheck system)
            = "NFPA 99-2021 Section 5.1.3.6") as Hdrop
      by (unfold pressureDropCheck; destruct (gtb _ (Finite 5)); reflexivity).
    destruct (found (lookup NFPA99_STANDARDS gasType));
      cbn [app map pressureCheck backupCheck alarmCheck ComplianceCheck.standard];
      rewrite Hdrop; reflexivity.
  - pose proof (NFPA99_STANDARDS_keys gasType) as Hkeys.
    unfold lookup.
    destruct (Map_get NFPA99_STANDARDS gasType) as [standards |].
    + cbn [found]. split; [intros _; left; apply Hkeys; discriminate | reflexivity].
    + destruct (isInherited gasType); cbn [found].
      * split; [intros _; now right | reflexivity].
      * split; [discriminate |].
        intros [Hin | Hinh]; [| discriminate].
        apply Hkeys in Hin. congruence.
Qed.

Lemma pressureDropCheck_status (system : MedicalGasSystem.t) :
  ComplianceCheck.status (pressureDropCheck system) <> non_compliant.
Proof.
  unfold pressureDropCheck. destruct (gtb _ (Finite 5)); discriminate.
Qed.

Lemma alarmCheck_status (system : MedicalGasSystem.t) :
  ComplianceCheck.status (alarmCheck system) <> non_compliant.
Proof.
  unfold alarmCheck. cbn [ComplianceCheck.status].
  destruct (Nat.leb 3 _); discriminate.
Qed.

Lemma backupCheck_status (system : MedicalGasSystem.t) :
  ComplianceCheck.status (backupCheck system) = non_compliant
  <-> Equipment.backupSupply (MedicalGasSystem.equipment system) = "".
Proof.
  unfold backupCheck. cbn [ComplianceCheck.status].
  destruct (String.eqb_spec
              (Equipment.backupSupply (MedicalGasSystem.equipment system)) "");
    split; intro; congruence.
Qed.

Lemma pressureCheck_status (system : MedicalGasSystem.t)
    (standards : property Standards.t) :
  ComplianceCheck.status (pressureCheck system standards) = non_compliant
  <-> ~ jle (Math_abs
               (jsub (SystemPressureRequirements.operatingPressure
                        (MedicalGasSystem.systemPressure system))
                     (Math_abs (ToNumber (field Standards.operatingPressure standards)))))
            (Finite 5).
Proof.
  unfold pressureCheck, jle. cbn [ComplianceCheck.status].
  destruct (leb _ (Finite 5)).
  - split; [discriminate | intro H; now contradiction H].
  - split; [intros _; discriminate | reflexivity].
Qed.

Lemma pressureCheck_inherited (system : MedicalGasSystem.t) (name : string) :
  ComplianceCheck.status (pressureCheck system (Inherited name)) = non_compliant.
Proof.
  unfold pressureCheck. cbn [field ToNumber Math_abs ComplianceCheck.status].
  destruct (SystemPressureRequirements.operatingPressure _); reflexivity.
Qed.

Lemma non_compliant_check_cause (system : MedicalGasSystem.t) (gasType : string)
    (check : ComplianceCheck.t) :
  In check (performComplianceChecks system gasType) ->
  ComplianceCheck.status check = non_compliant ->
  (exists standards,
     lookup NFPA99_STANDARDS gasType = Own standards
     /\ ~ jle (Math_abs
                 (jsub (SystemPressureRequirements.operatingPressure
                          (MedicalGasSystem.systemPressure system))
                       (Finite (Qabs (Standards.operatingPressure standards)))))
              (Finite 5))
  \/ lookup NFPA99_STANDARDS gasType = Inherited gasType
  \/ Equipment.backupSupply (MedicalGasSystem.equipment system) = "".
Proof.
  unfold performComplianceChecks.
  pose proof (pressureDropCheck_status system) as Hdrop.
  pose proof (alarmCheck_status system) as Halarm.
  pose proof (backupCheck_status system) as Hbackup.
  assert (forall name, lookup NFPA99_STANDARDS gasType = Inherited name ->
                       name = gasType) as Hname.
  { unfold lookup. intro name.
    destruct (Map_get NFPA99_STANDARDS gasType); [discriminate |].
    destruct (isInherited gasType); [congruence | discriminate]. }
  destruct (lookup NFPA99_STANDARDS gasType) as [standards | name |] eqn:Hlookup;
    cbn [found app In].
  - pose proof (pressureCheck_status system (Own standards)) as Hpressure.
    intros [<- | [<- | [<- | [<- | []]]]] Hstatus.
    + left. exists standards. split; [reflexivity | now apply Hpressure].
    + right; right. now apply Hbackup.
    + contradiction.
    + contradiction.
  - intros _ _. right; left. now rewrite (Hname name eq_refl).
  - intros [<- | [<- | [<- | []]]] Hstatus.
    + right; right. now apply Hbackup.
    + contradiction.
    + contradiction.
Qed.

(** X4.  A check is non-compliant exactly when the gas type is in the
    standards table and the operating pressure is not within 5 of the
    table's pressure, or when the gas type is a name inherited from
    [Object.prototype] (the pressure check is then made against an undefined
    pressure and fails), or when no backup supply is set; too few alarm
    features and an excessive pressure drop never make a check
    non-compliant. *)
Theorem performComplianceChecks_non_compliant_iff (system : MedicalGasSystem.t)
    (gasType : string) :
  (exists check,
     In check (performComplianceChecks system gasType)
     /\ ComplianceCheck.status check = non_compliant)
  <-> (exists standards,
         lookup NFPA99_STANDARDS gasType = Own standards
         /\ ~ jle (Math_abs
                     (jsub (SystemPressureRequirements.operatingPressure
                              (MedicalGasSystem.systemPressure system))
                           (Finite (Qabs (Standards.operatingPressure standards)))))
                  (Finite 5))
      \/ lookup NFPA99_STANDARDS gasType = Inherited gasType
      \/ Equipment.backupSupply (MedicalGasSystem.equipment system) = "".
Proof.
  split.
  - intros [check [Hin Hstatus]].
    exact (non_compliant_check_cause system gasType check Hin Hstatus).
  - unfold performComplianceChecks.
    intros [[standards [Hstd Hout]] | [Hinh | Hempty]].
    + rewrite Hstd. exists (pressureCheck system (Own standards)).
      split; [cbn [found app In]; left; reflexivity |].
      now apply pressureCheck_status.
    + rewrite Hinh. exists (pressureCheck system (Inherited gasType)).
      split; [cbn [found app In]; left; reflexivity |].
      apply pressureCheck_inherited.
    + exists (backupCheck system).
      split; [| now apply backupCheck_status].
      destruct (found (lookup NFPA99_STANDARDS gasType)); cbn [app In]; tauto.
Qed.

Lemma performComplianceChecks_non_compliant_iff_witness :
  (exists check,
     In check (performComplianceChecks (initialSystem Gas.oxygen) "oxygen")
     /\ ComplianceCheck.status check = non_compliant)
  /\ (exists check,
        In check (performComplianceChecks
                    (calculateEquipmentRequirements (initialSystem Gas.oxygen))
                    "constructor")
        /\ ComplianceCheck.status check = non_compliant).
Proof.
  split.
  - apply (performComplianceChecks_non_compliant_iff (initialSystem Gas.oxygen) "oxygen").
    right; right. reflexivity.
  - apply (performComplianceChecks_non_compliant_iff
             (calculateEquipmentRequirements (initialSystem Gas.oxygen)) "constructor").
    right; left. reflexivity.
Defined.

(** ** Validation *)

Lemma validateSystem_isValid_errors (system : MedicalGasSystem.t) :
  Validation.isValid (validateSystem system)
  = Nat.eqb (List.length (Validation.errors (validateSystem system))) 0.
Proof.
  unfold validateSystem.
  repeat match goal with
         | |- context [match ?x with _ => _ end] => destruct x
         end;
    reflexivity.
Qed.

Lemma validateSystem_errors_nil_iff (system : MedicalGasSystem.t) :
  Validation.errors (validateSystem system) = []
  <-> (forall standards,
         lookup NFPA99_STANDARDS (Gas.name (MedicalGasSystem.gasType system))
         = Own standards ->
         ~ jlt (Finite 5)
               (Math_abs
                  (jsub (SystemPressureRequirements.operatingPressure
                           (MedicalGasSystem.systemPressure system))
                        (Finite (Qabs (Standards.operatingPressure standards))))))
      /\ Equipment.backupSupply (MedicalGasSystem.equipment system) <> ""
      /\ ~ jlt (Finite 5)
               (Distribution.totalPressureDrop (MedicalGasSystem.distribution system)).
Proof.
  unfold validateSystem, jlt.
  destruct (standards_of_gasType (MedicalGasSystem.gasType system))
    as [standards [Hstd _]].
  rewrite Hstd. cbn [found field ToNumber].
  change (Math_abs (Finite (Standards.operatingPressure standards)))
    with (Finite (Qabs (Standards.operatingPressure standards))).
  destruct (gtb (Math_abs _) (Finite 5)) eqn:Hp5;
    [| destruct (gtb (Math_abs _) (Finite 2)) eqn:Hp2 ];
    (destruct (String.eqb_spec
                 (Equipment.backupSupply (MedicalGasSystem.equipment system)) "")
       as [Hb | Hb]);
    destruct (Nat.ltb _ 3);
    (destruct (gtb (Distribution.totalPressureDrop _) (Finite 5)) eqn:Hd5;
     [| destruct (gtb (Distribution.totalPressureDrop _) (Finite 3)) eqn:Hd3 ]);
    cbn [app Validation.errors];
    split.
  all: try discriminate.
  all: try (intros _;
            split; [intros standards' Heq; injection Heq as <-; congruence |];
            split; [assumption | congruence]).
  all: intros [Hpressure [Hbackup Hdrop]]; try reflexivity; exfalso.
  all: try (specialize (Hpressure _ eq_refl)).
  all: try contradiction; try (now apply Hdrop).
  all: now apply Hpressure.
Qed.

(** X5.  [validateSystem] accepts a system exactly when its operating
    pressure is not more than 5 away from the standards-table pressure, a
    backup supply is set and the total pressure drop is not above 5; the
    alarm features only ever produce a warning.  A pressure or a pressure
    drop that is NaN is not above 5. *)
Theorem validateSystem_isValid_iff (system : MedicalGasSystem.t) :
  Validation.isValid (validateSystem system) = true
  <-> (forall standards,
         lookup NFPA99_STANDARDS (Gas.name (MedicalGasSystem.gasType system))
         = Own standards ->
         ~ jlt (Finite 5)
               (Math_abs
                  (jsub (SystemPressureRequirements.operatingPressure
                           (MedicalGasSystem.systemPressure system))
                        (Finite (Qabs (Standards.operatingPressure standards))))))
      /\ Equipment.backupSupply (MedicalGasSystem.equipment system) <> ""
      /\ ~ jlt (Finite 5)
               (Distribution.totalPressureDrop (MedicalGasSystem.distribution system)).
Proof.
  rewrite validateSystem_isValid_errors, <- validateSystem_errors_nil_iff.
  rewrite Nat.eqb_eq. apply length_zero_iff_nil.
Qed.

Lemma validateSystem_isValid_iff_witness :
  ~ jlt (Finite 5)
        (Distribution.totalPressureDrop
           (MedicalGasSystem.distribution
              (calculateEquipmentRequirements (initialSystem Gas.oxygen)))).
Proof.
  apply (validateSystem_isValid_iff
           (calculateEquipmentRequirements (initialSystem Gas.oxygen))).
  reflexivity.
Defined.

(** A pressure difference that is a number and not above 5 is within 5. *)
Lemma jsub_not_NaN (x : jsnum) (q : Q) :
  x <> NaN ->
  ~ jlt (Finite 5) (Math_abs (jsub x (Finite q))) ->
  jle (Math_abs (jsub x (Finite q))) (Finite 5).
Proof.
  unfold jlt, jle. intros Hnan Hgt.
  destruct x as [a | | |]; try congruence; cbn [jsub jneg jadd Math_abs] in *.
  - apply leb_Finite_true. apply Qnot_lt_le. intro Hlt.
    apply Hgt. now apply gtb_Finite_true.
  - exfalso. now apply Hgt.
  - exfalso. now apply Hgt.
Qed.

(** X6.  [validateSystem] is stricter than the compliance checks: a system it
    accepts, whose operating pressure is a number, has no non-compliant
    check, whereas a total pressure drop above 5 makes it reject a system
    whose pressure-drop check is a mere warning.  An operating pressure
    that is NaN is the one case where it is laxer: the difference is NaN,
    neither above 5 for [validateSystem] nor within 5 for the compliance
    check. *)
Theorem validateSystem_stricter_than_checks (system : MedicalGasSystem.t) :
  (SystemPressureRequirements.operatingPressure (MedicalGasSystem.systemPressure system)
   <> NaN ->
   Validation.isValid (validateSystem system) = true ->
   Forall (fun check => ComplianceCheck.status check <> non_compliant)
          (performComplianceChecks system
             (Gas.name (MedicalGasSystem.gasType system))))
  /\ (jlt (Finite 5)
          (Distribution.totalPressureDrop (MedicalGasSystem.distribution system)) ->
      Validation.isValid (validateSystem system) = false
      /\ ComplianceCheck.status (pressureDropCheck system) = warning)
  /\ (SystemPressureRequirements.operatingPressure (MedicalGasSystem.systemPressure system)
      = NaN ->
      exists check,
        In check (performComplianceChecks system
                    (Gas.name (MedicalGasSystem.gasType system)))
        /\ ComplianceCheck.status check = non_compliant).
Proof.
  split; [| split].
  - intros Hnumber Hvalid.
    rewrite validateSystem_isValid_errors, Nat.eqb_eq, length_zero_iff_nil in Hvalid.
    apply validateSystem_errors_nil_iff in Hvalid.
    destruct Hvalid as [Hpressure [Hbackup _]].
    apply Forall_forall. intros check Hin Hstatus.
    destruct (non_compliant_check_cause _ _ _ Hin Hstatus)
      as [[standards [Hstd Hout]] | [Hinh | Hempty]].
    + specialize (Hpressure standards Hstd).
      apply Hout. now apply jsub_not_NaN.
    + destruct (standards_of_gasType (MedicalGasSystem.gasType system))
        as [standards [Hstd _]].
      congruence.
    + contradiction.
  - intro Hdrop. split.
    + destruct (Validation.isValid (validateSystem system)) eqn:Hvalid; [| reflexivity].
      rewrite validateSystem_isValid_errors, Nat.eqb_eq, length_zero_iff_nil in Hvalid.
      apply validateSystem_errors_nil_iff in Hvalid.
      destruct Hvalid as [_ [_ Hle]]. contradiction.
    + unfold pressureDropCheck. unfold jlt in Hdrop. now rewrite Hdrop.
  - intro Hnan.
    destruct (standards_of_gasType (MedicalGasSystem.gasType system))
      as [standards [Hstd _]].
    exists (pressureCheck system (Own standards)). split.
    + unfold performComplianceChecks. rewrite Hstd. cbn [found app In]. now left.
    + apply pressureCheck_status. rewrite Hnan. unfold jle. discriminate.
Qed.

Lemma validateSystem_stricter_than_checks_witness :
  Forall (fun check => ComplianceCheck.status check <> non_compliant)
         (performComplianceChecks
            (calculateEquipmentRequirements (initialSystem Gas.vacuum))
            (Gas.name
               (MedicalGasSystem.gasType
                  (calculateEquipmentRequirements (initialSystem Gas.vacuum))))).
Proof.
  apply (validateSystem_stricter_than_checks
           (calculateEquipmentRequirements (initialSystem Gas.vacuum))).
  - discriminate.
  - reflexivity.
Defined.

(** X7.  Every system [calculateSystemDemand] returns, for any room list,
    passes [validateSystem] with no error and no warning, and carries the
    gas type it is stored under. *)
Theorem pipeline_systems_are_valid (rooms : list RoomGasRequirements.t) :
  Forall (fun entry =>
            Gas.name (MedicalGasSystem.gasType (snd entry)) = fst entry
            /\ validateSystem (snd entry) = Validation.mk true [] [])
         (calculateSystemDemand rooms).
Proof.
  rewrite calculateSystemDemand_entries.
  apply Forall_forall. intros [gasType system] Hentry.
  apply in_map_iff in Hentry. destruct Hentry as [g [Heq _]].
  injection Heq as <- <-. cbn [fst snd].
  generalize (demandSums rooms g). intro d.
  destruct g; split; reflexivity.
Qed.

(** ** Recommendations and summary of a report *)

Lemma recommend_nothing (gasType : Gas.t) (d : jsnum * jsnum)
    (recommendations : list text) :
  nonNegativeOrNaN (fst d) ->
  recommend recommendations
            (Gas.name gasType,
             finalizeSystem (Gas.name gasType) (withDemand gasType d))
  = recommendations.
Proof.
  intro Hnonneg.
  destruct (finalizeSystem_invariants gasType d)
    as [_ [_ [_ [Hdist [_ Hstatus]]]]].
  destruct (finalizeSystem_demand gasType d) as [Htotal Hpeak].
  destruct (statedFactor_range gasType) as [_ Hle].
  unfold recommend. cbn [fst snd].
  rewrite Hdist, Hpeak, Htotal.
  cbn [Distribution.totalPressureDrop].
  replace (gtb (Finite 0) (Finite 3)) with false by reflexivity.
  assert (gtb (jmul (fst d) (Finite (statedFactor gasType)))
              (jmul (fst d) (Finite 0.9)) = false) as ->.
  { destruct (fst d) as [t | | |]; cbn [nonNegativeOrNaN] in Hnonneg;
      try contradiction; [| reflexivity].
    cbn [jmul]. apply gtb_Finite_false.
    set (f := statedFactor gasType) in *. nra. }
  assert (filter isNonCompliant
            (MedicalGasSystem.compliance
               (finalizeSystem (Gas.name gasType) (withDemand gasType d))) = []) as ->.
  { revert Hstatus.
    generalize (MedicalGasSystem.compliance
                  (finalizeSystem (Gas.name gasType) (withDemand gasType d))).
    intros checks Hstatus.
    destruct checks as [| c1 [| c2 [| c3 [| c4 [| ? ?]]]]]; try discriminate.
    cbn [map] in Hstatus. injection Hstatus as H1 H2 H3 H4.
    cbn [filter]. unfold isNonCompliant. now rewrite H1, H2, H3, H4. }
  reflexivity.
Qed.

(** X8.  For a room list with non-negative outlet quantities the report
    makes no recommendation at all. *)
Theorem report_without_recommendations (rooms : list RoomGasRequirements.t) :
  nonNegativeQuantities rooms ->
  EngineeringReport.recommendations (generateEngineeringReport rooms) = []
  /\ Summary.recommendationCount
       (EngineeringReport.summary (generateEngineeringReport rooms)) = 0%nat.
Proof.
  intro Hrooms.
  assert (fold_left recommend (calculateSystemDemand rooms) [] = []) as Hnone.
  { rewrite calculateSystemDemand_entries.
    unfold gasTypes. cbn [map fold_left].
    assert (forall g acc,
              recommend acc
                (Gas.name g,
                 finalizeSystem (Gas.name g) (withDemand g (demandSums rooms g)))
              = acc) as Hstep
      by (intros g acc; apply recommend_nothing;
          apply (installedDemand_nonneg rooms g Hrooms)).
    rewrite !Hstep. reflexivity. }
  unfold generateEngineeringReport.
  cbn [EngineeringReport.recommendations EngineeringReport.summary
       Summary.recommendationCount].
  rewrite Hnone. split; reflexivity.
Qed.

Lemma report_without_recommendations_witness :
  EngineeringReport.recommendations (generateEngineeringReport [operatingRoom]) = []
  /\ Summary.recommendationCount
       (EngineeringReport.summary (generateEngineeringReport [operatingRoom])) = 0%nat.
Proof.
  apply (report_without_recommendations [operatingRoom]).
  repeat constructor; unfold Qle; simpl; lia.
Defined.

(** With a negative quantity the peak, 0.75 times a negative total, exceeds
    0.9 times that total, and the oxygen system draws a recommendation. *)
Example negative_quantity_draws_recommendation :
  EngineeringReport.recommendations (generateEngineeringReport [negativeRoom])
  = [[ Lit "High simultaneous use factor for "; Lit "oxygen";
       Lit " - consider increasing backup capacity" ]].
Proof. reflexivity. Qed.

(** X9.  Whatever the rooms, also when no room has an outlet of some gas,
    the map of systems has the five gas types as keys and the report lists
    all five as required, in the order oxygen, air, vacuum, co2, n2o. *)
Theorem report_lists_all_gas_types (rooms : list RoomGasRequirements.t) :
  Summary.gasTypesRequired (EngineeringReport.summary (generateEngineeringReport rooms))
  = [ "oxygen"; "air"; "vacuum"; "co2"; "n2o" ]
  /\ Map_keys (calculateSystemDemand rooms) = [ "oxygen"; "air"; "vacuum"; "co2"; "n2o" ].
Proof.
  assert (Map_keys (calculateSystemDemand rooms)
          = [ "oxygen"; "air"; "vacuum"; "co2"; "n2o" ]) as Hkeys.
  { rewrite calculateSystemDemand_entries. unfold Map_keys.
    rewrite map_map. reflexivity. }
  unfold generateEngineeringReport.
  cbn [EngineeringReport.summary Summary.gasTypesRequired].
  split; exact Hkeys.
Qed.

(** ** Demand as a sum *)

Lemma bumpOutlets_sum (gasType : Gas.t) (room : RoomGasRequirements.t)
    (outlets : list MedicalGasOutlet.t) :
  forall D : Gas.t -> jsnum * jsnum,
    fst (fold_left (bumpOutlet room) outlets D gasType)
    = fold_left jadd
                (map (outletDemand room) (filter (suppliedBy gasType) outlets))
                (fst (D gasType)).
Proof.
  induction outlets as [| outlet rest IH]; intro D; cbn [fold_left filter map].
  - reflexivity.
  - rewrite IH. unfold bumpOutlet.
    change (String.eqb (Gas.name gasType)
                       (OutletGas.name (MedicalGasOutlet.type outlet)))
      with (suppliedBy gasType outlet).
    destruct (suppliedBy gasType outlet); reflexivity.
Qed.

Lemma bumpRooms_sum (gasType : Gas.t) (rooms : list RoomGasRequirements.t) :
  forall D : Gas.t -> jsnum * jsnum,
    fst (fold_left bumpRoom rooms D gasType)
    = fold_left jadd (outletDemands gasType rooms) (fst (D gasType)).
Proof.
  induction rooms as [| room rest IH]; intro D.
  - reflexivity.
  - cbn [fold_left outletDemands flat_map]. rewrite IH.
    change (flat_map _ rest) with (outletDemands gasType rest).
    rewrite fold_left_app. unfold bumpRoom. now rewrite bumpOutlets_sum.
Qed.

Lemma installedDemand_formula (gasType : Gas.t) (rooms : list RoomGasRequirements.t) :
  installedDemand gasType rooms = facilityDemand gasType rooms.
Proof.
  unfold installedDemand, demandSums, facilityDemand. now rewrite bumpRooms_sum.
Qed.

(** X10.  For each of the five gas types the system's total demand is the
    sum, over all rooms and all outlets of that gas type, of the outlet
    quantity times the base flow rate of the outlet's gas and the room's
    type, the terms being added from the left in the order the rooms and
    outlets are listed; outlets of other types add nothing.  The peak demand
    is that sum times the gas type's factor. *)
Theorem total_demand_is_sum (rooms : list RoomGasRequirements.t) (gasType : Gas.t) :
  exists system,
    systemOf rooms gasType = Some system
    /\ MedicalGasSystem.totalDemand system = facilityDemand gasType rooms
    /\ MedicalGasSystem.peakDemand system
       = jmul (facilityDemand gasType rooms) (Finite (statedFactor gasType)).
Proof.
  eexists. split; [apply systemOf_entry |].
  destruct (finalizeSystem_demand gasType (demandSums rooms gasType))
    as [Htotal Hpeak].
  rewrite Hpeak, Htotal.
  change (fst (demandSums rooms gasType)) with (installedDemand gasType rooms).
  rewrite installedDemand_formula. split; reflexivity.
Qed.

(** The oxygen demand of the operating room followed by the dialysis
    suite: 6 outlets at 15, then 3 at the fallback rate 5. *)
Example oxygen_demand_of_two_rooms :
  outletDemands Gas.oxygen [operatingRoom; dialysisRoom]
  = [ Finite (6 * 15); Finite (3 * 5) ]
  /\ facilityDemand Gas.oxygen [operatingRoom; dialysisRoom]
     = Finite (0 + 6 * 15 + 3 * 5).
Proof. split; reflexivity. Qed.

(** ** Outlets of a gas without a system *)

Lemma bumpOutlets_known (room : RoomGasRequirements.t)
    (outlets : list MedicalGasOutlet.t) :
  forall D D' : Gas.t -> jsnum * jsnum,
    (forall g, D g = D' g) ->
    forall g,
      fold_left (bumpOutlet room) outlets D g
      = fold_left (bumpOutlet (knownOutletsOnly room)) (filter hasSystem outlets) D' g.
Proof.
  induction outlets as [| outlet rest IH]; intros D D' HD g.
  - apply HD.
  - cbn [fold_left filter].
    destruct (hasSystem outlet) eqn:Hknown.
    + cbn [fold_left]. apply IH.
      intros g'. unfold bumpOutlet.
      destruct (String.eqb (Gas.name g') _).
      * rewrite (HD g'). reflexivity.
      * apply HD.
    + apply IH.
      intros g'. unfold bumpOutlet.
      destruct (String.eqb (Gas.name g')
                           (OutletGas.name (MedicalGasOutlet.type outlet))) eqn:E.
      * exfalso.
        assert (hasSystem outlet = true) as Habs.
        { unfold hasSystem. apply existsb_exists. exists g'.
          split; [destruct g'; cbn; tauto | exact E]. }
        congruence.
      * apply HD.
Qed.

Lemma demandSums_known (rooms : list RoomGasRequirements.t) (gasType : Gas.t) :
  demandSums (map knownOutletsOnly rooms) gasType = demandSums rooms gasType.
Proof.
  unfold demandSums.
  assert (forall D D' : Gas.t -> jsnum * jsnum,
            (forall g, D g = D' g) ->
            forall g,
              fold_left bumpRoom rooms D g
              = fold_left bumpRoom (map knownOutletsOnly rooms) D' g) as Hfold.
  { induction rooms as [| room rest IH]; intros D D' HD g.
    - apply HD.
    - cbn [map fold_left]. apply IH.
      intros g'. unfold bumpRoom.
      now apply bumpOutlets_known. }
  symmetry. now apply Hfold.
Qed.

(** X13.  Outlets whose type is none of the five gas types (nitrogen and
    argon) have no system and change nothing: removing them from every room
    leaves the map of systems as it is. *)
Theorem other_gases_are_ignored (rooms : list RoomGasRequirements.t) :
  calculateSystemDemand (map knownOutletsOnly rooms) = calculateSystemDemand rooms.
Proof.
  rewrite !calculateSystemDemand_entries.
  apply map_ext. intros gasType.
  now rewrite demandSums_known.
Qed.

(** Such outlets are still counted by the report's summary. *)
Example nitrogen_outlets_counted_not_supplied :
  let rooms := [ roomOf "ICU" 250 [ outletOf OutletGas.nitrogen 3 1 ] ] in
  Summary.totalOutlets (EngineeringReport.summary (generateEngineeringReport rooms)) == 3
  /\ hasSystem (outletOf OutletGas.nitrogen 3 1) = false
  /\ calculateSystemDemand rooms = calculateSystemDemand [].
Proof. repeat split; reflexivity. Qed.

(** ** Cost as a function of demand *)

Lemma baseCosts_of_gasType (gasType : Gas.t) :
  exists tiers,
    lookup baseCosts (Gas.name gasType) = Own tiers
    /\ 0 <= CostTier.low tiers
    /\ CostTier.low tiers <= CostTier.medium tiers
    /\ CostTier.medium tiers <= CostTier.high tiers.
Proof.
  destruct gasType; eexists; (split; [reflexivity |]);
    cbn [CostTier.low CostTier.medium CostTier.high]; repeat split; discriminate.
Qed.

Lemma Qfloor_half_le (x y : Q) :
  x <= y -> inject_Z (Qfloor (x + 0.5)) <= inject_Z (Qfloor (y + 0.5)).
Proof.
  intro Hle. rewrite <- Zle_Qle. apply Qfloor_resp_le. lra.
Qed.

Lemma Qceiling_le (x y : Q) :
  x <= y -> inject_Z (Qceiling x) <= inject_Z (Qceiling y).
Proof.
  intro Hle. rewrite <- Zle_Qle. now apply Qceiling_resp_le.
Qed.

Lemma redundancyMultipliers_positive (level : RedundancyLevel) :
  0 < redundancyMultipliers level.
Proof. destruct level; reflexivity. Qed.

Lemma equipped_cost_le (system system' : MedicalGasSystem.t) (p p' len : Q) :
  MedicalGasSystem.gasType system = MedicalGasSystem.gasType system' ->
  MedicalGasSystem.distribution system = MedicalGasSystem.distribution system' ->
  MedicalGasSystem.systemPressure system = MedicalGasSystem.systemPressure system' ->
  MedicalGasSystem.peakDemand system = Finite p ->
  MedicalGasSystem.peakDemand system' = Finite p' ->
  Distribution.totalLength (MedicalGasSystem.distribution system) = Finite len ->
  p <= p' ->
  exists cost cost',
    calculateSystemCost (calculateEquipmentRequirements system) = Finite cost
    /\ calculateSystemCost (calculateEquipmentRequirements system') = Finite cost'
    /\ cost <= cost'.
Proof.
  intros Hgas Hdist Hpressure Hpeak Hpeak' Hlen Hle.
  unfold calculateSystemCost, costBeforeRedundancy, calculateEquipmentRequirements.
  cbn [MedicalGasSystem.equipment MedicalGasSystem.set_equipment
       MedicalGasSystem.gasType MedicalGasSystem.peakDemand
       MedicalGasSystem.distribution MedicalGasSystem.systemPressure
       Equipment.manifolds Equipment.regulators Equipment.alarms].
  rewrite <- Hgas, <- Hdist, <- Hpressure, Hpeak, Hpeak', Hlen.
  destruct (baseCosts_of_gasType (MedicalGasSystem.gasType system))
    as [tiers [-> [Hlow [Hmed Hhigh]]]].
  cbn [found field ToNumber].
  pose proof (redundancyMultipliers_positive
                (SystemPressureRequirements.redundancyLevel
                   (MedicalGasSystem.systemPressure system))) as Hmult.
  set (mult := redundancyMultipliers _) in *.
  set (alarmCount := inject_Z (Z.of_nat (List.length alarmFeatures))).
  change (jdiv (Finite p) (Finite 50)) with (Finite (p / 50)).
  change (jdiv (Finite p') (Finite 50)) with (Finite (p' / 50)).
  cbn [Math_ceil].
  pose proof (Qceiling_le (p / 50) (p' / 50)) as Hceil.
  assert (p / 50 <= p' / 50) as Hdiv
    by (unfold Qdiv; apply Qmult_le_compat_r; [exact Hle | discriminate]).
  specialize (Hceil Hdiv).
  set (regs := inject_Z (Qceiling (p / 50))) in *.
  set (regs' := inject_Z (Qceiling (p' / 50))) in *.
  destruct (gtb (Finite p) (Finite 200)) eqn:H200;
    destruct (gtb (Finite p') (Finite 200)) eqn:H200';
    destruct (gtb (Finite p) (Finite 50)) eqn:H50;
    destruct (gtb (Finite p') (Finite 50)) eqn:H50';
    destruct (gtb (Finite p) (Finite 100)) eqn:H100;
    destruct (gtb (Finite p') (Finite 100)) eqn:H100';
    try apply gtb_Finite_true in H200; try apply gtb_Finite_false in H200;
    try apply gtb_Finite_true in H200'; try apply gtb_Finite_false in H200';
    try apply gtb_Finite_true in H50; try apply gtb_Finite_false in H50;
    try apply gtb_Finite_true in H50'; try apply gtb_Finite_false in H50';
    try apply gtb_Finite_true in H100; try apply gtb_Finite_false in H100;
    try apply gtb_Finite_true in H100'; try apply gtb_Finite_false in H100';
    try (exfalso; lra);
    cbn [jadd jmul Math_round];
    do 2 eexists; (split; [reflexivity |]); (split; [reflexivity |]);
    apply Qfloor_half_le; (apply Qmult_le_compat_r; [| lra]); lra.
Qed.

(** X14.  More peak demand never costs less: for a system sized by
    [calculateEquipmentRequirements], with a finite total length, raising
    the peak demand from one number to another and leaving every other input
    as it is does not lower the estimated cost. *)
Theorem cost_monotone_in_peak (system : MedicalGasSystem.t) (peak peak' length : Q) :
  MedicalGasSystem.peakDemand system = Finite peak ->
  Distribution.totalLength (MedicalGasSystem.distribution system) = Finite length ->
  peak <= peak' ->
  exists cost cost',
    calculateSystemCost (calculateEquipmentRequirements system) = Finite cost
    /\ calculateSystemCost
         (calculateEquipmentRequirements
            (MedicalGasSystem.set_peakDemand system (Finite peak')))
       = Finite cost'
    /\ cost <= cost'.
Proof.
  intros Hpeak Hlength Hle.
  apply (equipped_cost_le system
           (MedicalGasSystem.set_peakDemand system (Finite peak'))
           peak peak' length); try reflexivity; assumption.
Qed.

Lemma cost_monotone_in_peak_witness :
  exists cost cost',
    calculateSystemCost (calculateEquipmentRequirements (initialSystem Gas.oxygen))
    = Finite cost
    /\ calculateSystemCost
         (calculateEquipmentRequirements
            (MedicalGasSystem.set_peakDemand (initialSystem Gas.oxygen) (Finite 300)))
       = Finite cost'
    /\ cost <= cost'.
Proof.
  apply (cost_monotone_in_peak (initialSystem Gas.oxygen) 0 300 0).
  - reflexivity.
  - reflexivity.
  - discriminate.
Defined.

Lemma estimatedCost_finalizeSystem (gasType : Gas.t) (d : jsnum * jsnum) :
  MedicalGasSystem.estimatedCost
    (finalizeSystem (Gas.name gasType) (withDemand gasType d))
  = calculateSystemCost
      (calculateEquipmentRequirements
         (MedicalGasSystem.set_peakDemand
            (withDemand gasType d)
            (jmul (fst d) (Finite (statedFactor gasType))))).
Proof. destruct gasType; reflexivity. Qed.

Lemma estimatedCost_baseline (gasType : Gas.t) (d : jsnum * jsnum) (total : Q) :
  fst d = Finite total ->
  0 <= total ->
  exists cost0 cost,
    MedicalGasSystem.estimatedCost
      (finalizeSystem (Gas.name gasType) (withDemand gasType (Finite 0, Finite 0)))
    = Finite cost0
    /\ MedicalGasSystem.estimatedCost
         (finalizeSystem (Gas.name gasType) (withDemand gasType d))
       = Finite cost
    /\ cost0 <= cost.
Proof.
  intros Htotal Hnonneg.
  destruct (statedFactor_range gasType) as [Hpos _].
  rewrite !estimatedCost_finalizeSystem. cbn [fst]. rewrite Htotal. cbn [jmul].
  apply (equipped_cost_le _ _ (0 * statedFactor gasType)
           (total * statedFactor gasType) 0); try reflexivity.
  set (f := statedFactor gasType) in *. nra.
Qed.

(** X15.  For non-negative outlet quantities and room types that are not
    names of members of [Object.prototype], no gas system is estimated
    cheaper than in the facility without rooms, and the report's total
    system cost is a number, at least the 420000 of that empty facility. *)
Theorem cost_at_least_empty_facility (rooms : list RoomGasRequirements.t) :
  nonNegativeQuantities rooms ->
  plainRoomTypes rooms ->
  (forall gasType,
     exists system system0 cost cost0,
       systemOf rooms gasType = Some system
       /\ systemOf [] gasType = Some system0
       /\ MedicalGasSystem.estimatedCost system = Finite cost
       /\ MedicalGasSystem.estimatedCost system0 = Finite cost0
       /\ cost0 <= cost)
  /\ same (Summary.totalSystemCost
             (EngineeringReport.summary (generateEngineeringReport [])))
          (Finite 420000)
  /\ exists total,
       Summary.totalSystemCost
         (EngineeringReport.summary (generateEngineeringReport rooms))
       = Finite total
       /\ 420000 <= total.
Proof.
  intros Hrooms Hplain.
  assert (forall g,
            exists cost0 cost,
              MedicalGasSystem.estimatedCost
                (finalizeSystem (Gas.name g) (withDemand g (Finite 0, Finite 0)))
              = Finite cost0
              /\ MedicalGasSystem.estimatedCost
                   (finalizeSystem (Gas.name g) (withDemand g (demandSums rooms g)))
                 = Finite cost
              /\ cost0 <= cost) as Hbase.
  { intro g.
    destruct (installedDemand_finite rooms g Hplain) as [total Htotal].
    pose proof (installedDemand_nonneg rooms g Hrooms) as Hnonneg.
    rewrite Htotal in Hnonneg. cbn [nonNegativeOrNaN] in Hnonneg.
    now apply (estimatedCost_baseline g (demandSums rooms g) total). }
  split; [| split].
  - intro gasType.
    destruct (Hbase gasType) as [cost0 [cost [Hcost0 [Hcost Hle]]]].
    do 4 eexists.
    split; [apply systemOf_entry |].
    split; [apply systemOf_entry |].
    split; [exact Hcost |].
    split; [exact Hcost0 | exact Hle].
  - reflexivity.
  - unfold generateEngineeringReport.
    cbn [EngineeringReport.summary Summary.totalSystemCost].
    rewrite calculateSystemDemand_entries.
    unfold Map_values. rewrite map_map. cbn [snd].
    unfold gasTypes. cbn [map fold_left].
    destruct (Hbase Gas.oxygen) as [b1 [c1 [E1 [-> B1]]]].
    destruct (Hbase Gas.air) as [b2 [c2 [E2 [-> B2]]]].
    destruct (Hbase Gas.vacuum) as [b3 [c3 [E3 [-> B3]]]].
    destruct (Hbase Gas.co2) as [b4 [c4 [E4 [-> B4]]]].
    destruct (Hbase Gas.n2o) as [b5 [c5 [E5 [-> B5]]]].
    assert (b1 == 84000) as V1 by (vm_compute in E1; injection E1 as <-; reflexivity).
    assert (b2 == 98000) as V2 by (vm_compute in E2; injection E2 as <-; reflexivity).
    assert (b3 == 91000) as V3 by (vm_compute in E3; injection E3 as <-; reflexivity).
    assert (b4 == 70000) as V4 by (vm_compute in E4; injection E4 as <-; reflexivity).
    assert (b5 == 77000) as V5 by (vm_compute in E5; injection E5 as <-; reflexivity).
    cbn [jadd]. eexists. split; [reflexivity |]. lra.
Qed.

Lemma cost_at_least_empty_facility_witness :
  exists total,
    Summary.totalSystemCost
      (EngineeringReport.summary (generateEngineeringReport [operatingRoom]))
    = Finite total
    /\ 420000 <= total.
Proof.
  apply (cost_at_least_empty_facility [operatingRoom]).
  - repeat constructor; unfold Qle; simpl; lia.
  - repeat constructor.
Defined.

(** A room type named like a member of [Object.prototype] makes the oxygen
    estimate, and with it the total, NaN. *)
Example inherited_room_type_cost_is_NaN :
  Summary.totalSystemCost
    (EngineeringReport.summary (generateEngineeringReport [toStringRoom]))
  = NaN.
Proof. reflexivity. Qed.

(** ** Pipe sizing: what decides the diameter *)

Lemma area_positive (diameter : Q) : 0 < diameter -> 0 < area diameter.
Proof.
  intro Hd. unfold area.
  assert (0 < Math_PI) as Hpi by reflexivity.
  assert (0 < diameter / 12 / 2) as Hr.
  { unfold Qdiv. repeat apply Qmult_lt_0_compat; try reflexivity. exact Hd. }
  apply Qmult_lt_0_compat; [exact Hpi |].
  now apply Qmult_lt_0_compat.
Qed.

Lemma velocityAt_monotone (flowRate flowRate' diameter : Q) :
  0 < diameter -> flowRate <= flowRate' ->
  velocityAt flowRate diameter <= velocityAt flowRate' diameter.
Proof.
  intros Hd Hle. unfold velocityAt.
  pose proof (area_positive diameter Hd) as Harea.
  unfold Qdiv at 1 3.
  apply Qmult_le_compat_r.
  - unfold Qdiv. apply Qmult_le_compat_r; [exact Hle | discriminate].
  - apply Qlt_le_weak. now apply Qinv_lt_0_compat.
Qed.

Lemma velocityAt_nonpositive (flowRate diameter : Q) :
  0 < diameter -> flowRate <= 0 -> velocityAt flowRate diameter <= 0.
Proof.
  intros Hd Hle.
  pose proof (velocityAt_monotone flowRate 0 diameter Hd Hle) as Hmono.
  assert (velocityAt 0 diameter == 0) as Hzero
    by (unfold velocityAt, Qdiv; ring).
  lra.
Qed.

Lemma velocityAt_antitone (flowRate diameter diameter' : Q) :
  0 <= flowRate -> 0 < diameter -> diameter <= diameter' ->
  velocityAt flowRate diameter' <= velocityAt flowRate diameter.
Proof.
  intros Hflow Hd Hle. unfold velocityAt.
  assert (0 < diameter') as Hd' by lra.
  pose proof (area_positive diameter Hd) as Ha.
  pose proof (area_positive diameter' Hd') as Ha'.
  assert (area diameter <= area diameter') as Harea.
  { unfold area.
    assert (0 < Math_PI) as Hpi by reflexivity.
    apply Qmult_le_l; [exact Hpi |].
    assert (diameter / 12 / 2 == diameter * (1 # 24)) as -> by field.
    assert (diameter' / 12 / 2 == diameter' * (1 # 24)) as -> by field.
    nra. }
  assert (0 <= flowRate / 60) as Hq
    by (unfold Qdiv; apply Qmult_le_0_compat; [exact Hflow | discriminate]).
  set (q := flowRate / 60) in *.
  set (a := area diameter) in *. set (a' := area diameter') in *.
  assert (q / a * a == q) as Hx by (field; lra).
  assert (0 <= q / a) as Hx0
    by (unfold Qdiv; apply Qmult_le_0_compat;
        [exact Hq | apply Qlt_le_weak; now apply Qinv_lt_0_compat]).
  apply Qle_shift_div_r; [exact Ha' |].
  set (x := q / a) in *. nra.
Qed.

Lemma standardSizes_range (diameter : Q) :
  In diameter standardSizes -> 0 < diameter /\ diameter <= 8.
Proof.
  unfold standardSizes. cbn [In].
  intros [<- | [<- | [<- | [<- | [<- | [<- | [<- | [<- | [<- | [<- | [<- | []]]]]]]]]]]];
    split; (reflexivity || discriminate).
Qed.

Lemma sizingLoop_diameter (log10 log10' : jsnum -> jsnum)
    (pow pow' : jsnum -> jsnum -> jsnum)
    (flowRate length length' : Q) (material material' : string)
    (roughness roughness' : value) (sizes : list Q) :
  option_map PipeCalculation.diameter
             (sizingLoop log10 pow flowRate length material roughness sizes)
  = option_map PipeCalculation.diameter
               (sizingLoop log10' pow' flowRate length' material' roughness' sizes).
Proof.
  induction sizes as [| diameter rest IH]; cbn [sizingLoop]; [reflexivity |].
  destruct (Qle_bool (velocityAt flowRate diameter) (maxVelocity "oxygen"));
    [reflexivity | exact IH].
Qed.

Lemma calculatePipeSizing_diameter (log10 log10' : jsnum -> jsnum)
    (pow pow' : jsnum -> jsnum -> jsnum)
    (flowRate pressure pressure' length length' : Q) (material material' : string) :
  PipeCalculation.diameter
    (calculatePipeSizing log10 pow flowRate pressure length material)
  = PipeCalculation.diameter
      (calculatePipeSizing log10' pow' flowRate pressure' length' material').
Proof.
  unfold calculatePipeSizing.
  pose proof (sizingLoop_diameter log10 log10' pow pow' flowRate length length'
                material material'
                (or_default (entry (lookup PIPE_ROUGHNESS material)) 0.000015)
                (or_default (entry (lookup PIPE_ROUGHNESS material')) 0.000015)
                standardSizes) as Hloop.
  destruct (sizingLoop log10 pow _ _ _ _ standardSizes);
    destruct (sizingLoop log10' pow' _ _ _ _ standardSizes);
    cbn [option_map] in Hloop; try discriminate.
  - now injection Hloop.
  - reflexivity.
Qed.

(** X17.  The diameter and the velocity [calculatePipeSizing] returns depend
    on the flow rate alone: the pressure, the length and the material play
    no part in the choice of the size. *)
Theorem diameter_depends_on_flow_only (log10 log10' : jsnum -> jsnum)
    (pow pow' : jsnum -> jsnum -> jsnum)
    (flowRate pressure pressure' length length' : Q) (material material' : string) :
  let result := calculatePipeSizing log10 pow flowRate pressure length material in
  let result' := calculatePipeSizing log10' pow' flowRate pressure' length' material' in
  PipeCalculation.diameter result = PipeCalculation.diameter result'
  /\ PipeCalculation.velocity result = PipeCalculation.velocity result'.
Proof.
  cbv zeta.
  pose proof (calculatePipeSizing_diameter log10 log10' pow pow' flowRate
                pressure pressure' length length' material material') as Hdiameter.
  split; [exact Hdiameter |].
  destruct (calculatePipeSizing_first_fit_at_25 log10 pow
              flowRate pressure length material) as [_ [Hv _]].
  destruct (calculatePipeSizing_first_fit_at_25 log10' pow'
              flowRate pressure' length' material') as [_ [Hv' _]].
  rewrite Hv, Hv', Hdiameter. reflexivity.
Qed.

(** X18.  A larger flow rate never gets a smaller pipe. *)
Theorem diameter_monotone_in_flow (log10 : jsnum -> jsnum)
    (pow : jsnum -> jsnum -> jsnum)
    (flowRate flowRate' pressure length : Q) (material : string) :
  flowRate <= flowRate' ->
  PipeCalculation.diameter
    (calculatePipeSizing log10 pow flowRate pressure length material)
  <= PipeCalculation.diameter
       (calculatePipeSizing log10 pow flowRate' pressure length material).
Proof.
  intro Hle.
  destruct (calculatePipeSizing_first_fit_at_25 log10 pow
              flowRate pressure length material) as [Hin [_ [_ [_ [Hsmaller _]]]]].
  destruct (calculatePipeSizing_first_fit_at_25 log10 pow
              flowRate' pressure length material) as [Hin' [Hv' [_ [_ [_ Hfallback']]]]].
  set (d := PipeCalculation.diameter
              (calculatePipeSizing log10 pow flowRate pressure length material)) in *.
  set (d' := PipeCalculation.diameter
               (calculatePipeSizing log10 pow flowRate' pressure length material)) in *.
  apply Qnot_lt_le. intro Hlt.
  pose proof (Hsmaller d' Hin' Hlt) as Hfast.
  destruct (standardSizes_range d' Hin') as [Hpos' _].
  destruct (standardSizes_range d Hin) as [_ Hmax].
  pose proof (velocityAt_monotone flowRate flowRate' d' Hpos' Hle) as Hmono.
  assert (25 < PipeCalculation.velocity
                 (calculatePipeSizing log10 pow flowRate' pressure length material))
    as Hfast' by (rewrite Hv'; fold d'; lra).
  destruct (Hfallback' Hfast') as [Height _].
  fold d' in Height. rewrite Height in Hlt. lra.
Qed.

Lemma diameter_monotone_in_flow_witness :
  PipeCalculation.diameter
    (calculatePipeSizing (fun _ => Finite 1) (fun _ _ => Finite 1) 4 50 100 "copper")
  <= PipeCalculation.diameter
       (calculatePipeSizing (fun _ => Finite 1) (fun _ _ => Finite 1) 40 50 100 "copper").
Proof.
  apply (diameter_monotone_in_flow (fun _ => Finite 1) (fun _ _ => Finite 1)
           4 40 50 100 "copper").
  vm_compute. discriminate.
Defined.

(** X19.  The edges of the search.  A flow rate of zero or less gets the
    smallest size, 0.5 in, with a velocity of zero or less.  When even the
    8 in pipe runs faster than 25 ft/s the result is that 8 in pipe with its
    velocity above the ceiling; in every other case the returned velocity
    is within the ceiling. *)
Theorem calculatePipeSizing_edges (log10 : jsnum -> jsnum)
    (pow : jsnum -> jsnum -> jsnum)
    (flowRate pressure length : Q) (material : string) :
  let result := calculatePipeSizing log10 pow flowRate pressure length material in
  (flowRate <= 0 ->
   PipeCalculation.diameter result = 0.5 /\ PipeCalculation.velocity result <= 0)
  /\ (25 < velocityAt flowRate 8 ->
      PipeCalculation.diameter result = 8 /\ 25 < PipeCalculation.velocity result)
  /\ (velocityAt flowRate 8 <= 25 -> PipeCalculation.velocity result <= 25).
Proof.
  cbv zeta.
  destruct (calculatePipeSizing_first_fit_at_25 log10 pow
              flowRate pressure length material)
    as [Hin [Hv [_ [_ [Hsmaller Hfallback]]]]].
  set (result := calculatePipeSizing log10 pow flowRate pressure length material) in *.
  assert (In 8 standardSizes) as Height by (unfold standardSizes; cbn [In]; tauto).
  assert (In 0.5 standardSizes) as Hhalf by (unfold standardSizes; cbn [In]; tauto).
  split; [| split].
  - intro Hle.
    assert (PipeCalculation.diameter result = 0.5) as Hd.
    { unfold result, calculatePipeSizing, standardSizes. cbn [sizingLoop].
      assert (Qle_bool (velocityAt flowRate 0.5) (maxVelocity "oxygen") = true) as ->.
      { apply Qle_bool_iff. change (maxVelocity "oxygen") with 25.
        pose proof (velocityAt_nonpositive flowRate 0.5 eq_refl Hle). lra. }
      reflexivity. }
    split; [exact Hd |].
    rewrite Hv, Hd. now apply velocityAt_nonpositive.
  - intro Hfast.
    assert (25 < PipeCalculation.velocity result) as Hfast'.
    { destruct (standardSizes_range _ Hin) as [Hpos Hmax].
      destruct (Qlt_le_dec flowRate 0) as [Hneg | Hnonneg].
      - pose proof (velocityAt_nonpositive flowRate 8 eq_refl
                      (Qlt_le_weak _ _ Hneg)) as Hle8.
        lra.
      - pose proof (velocityAt_antitone flowRate _ 8 Hnonneg Hpos Hmax) as Hanti.
        rewrite Hv. lra. }
    split; [now apply Hfallback | exact Hfast'].
  - intro Hslow. apply Qnot_lt_le. intro Hfast.
    destruct (Hfallback Hfast) as [_ Hall].
    rewrite Forall_forall in Hall. specialize (Hall 8 Height). lra.
Qed.

Lemma calculatePipeSizing_edges_witness :
  PipeCalculation.diameter
    (calculatePipeSizing (fun _ => Finite 1) (fun _ _ => Finite 1) 600 50 100 "copper") = 8
  /\ 25 < PipeCalculation.velocity
            (calculatePipeSizing (fun _ => Finite 1) (fun _ _ => Finite 1)
                                 600 50 100 "copper").
Proof.
  apply (calculatePipeSizing_edges (fun _ => Finite 1) (fun _ _ => Finite 1)
           600 50 100 "copper").
  vm_compute. reflexivity.
Defined.

(** ** Pipe sizing: the material *)

Lemma calculatePipeSizing_is_pipeOf (log10 : jsnum -> jsnum)
    (pow : jsnum -> jsnum -> jsnum)
    (flowRate pressure length : Q) (material : string) :
  calculatePipeSizing log10 pow flowRate pressure length material
  = pipeOf log10 pow flowRate length material
      (or_default (entry (lookup PIPE_ROUGHNESS material)) 0.000015)
      (PipeCalculation.diameter
         (calculatePipeSizing log10 pow flowRate pressure length material)).
Proof.
  unfold calculatePipeSizing.
  pose proof (sizingLoop_first_fit log10 pow flowRate length material
                (or_default (entry (lookup PIPE_ROUGHNESS material)) 0.000015)
                standardSizes) as Hloop.
  destruct (sizingLoop log10 pow flowRate length material _ standardSizes)
    as [result |].
  - destruct Hloop as [_ [diameter [_ [_ [-> _]]]]]. reflexivity.
  - reflexivity.
Qed.

(** The roughness looked up for a material: one of the three values of the
    table, the second being the default, or the member of
    [Object.prototype] the material is named like. *)
Lemma roughness_cases (material : string) :
  (isInherited material = false ->
   exists roughness,
     or_default (entry (lookup PIPE_ROUGHNESS material)) 0.000015
     = Number (Finite roughness)
     /\ In roughness [ 0.000005; 0.000015; 0.000045 ])
  /\ (isInherited material = true ->
      or_default (entry (lookup PIPE_ROUGHNESS material)) 0.000015 = Member material).
Proof.
  unfold lookup, PIPE_ROUGHNESS. cbn [Map_get].
  destruct (String.eqb_spec "copper" material) as [<- | _];
    [split; [intros _; eexists; split; [reflexivity | cbn; tauto] | discriminate] |].
  destruct (String.eqb_spec "stainless_steel" material) as [<- | _];
    [split; [intros _; eexists; split; [reflexivity | cbn; tauto] | discriminate] |].
  destruct (String.eqb_spec "chrome_moly" material) as [<- | _];
    [split; [intros _; eexists; split; [reflexivity | cbn; tauto] | discriminate] |].
  destruct (isInherited material).
  - split; [discriminate | reflexivity].
  - split; [intros _; eexists; split; [reflexivity | cbn; tauto] | discriminate].
Qed.

(** A pressure drop computed from a roughness that is no number is NaN, as
    soon as [Math.log10] maps NaN to NaN. *)
Lemma calculatePressureDrop_Member (log10 : jsnum -> jsnum)
    (pow : jsnum -> jsnum -> jsnum)
    (flowRate diameter length velocity : Q) (name : string) :
  log10 NaN = NaN ->
  calculatePressureDrop log10 pow flowRate diameter length (Member name) velocity = NaN.
Proof.
  intro Hlog. unfold calculatePressureDrop, calculateFrictionFactor.
  cbn [ToNumber jdiv jadd]. rewrite Hlog. reflexivity.
Qed.

(** X20.  For a material that is not named like a member of
    [Object.prototype] the roughness of the result is one of the three
    values of the roughness table; a material the table does not list is
    then sized as stainless steel: the result carries the caller's material
    name and, apart from that name, is the result for ["stainless_steel"].
    For a material such as ["constructor"] the roughness is the inherited
    member and the pressure drop is NaN. *)
Theorem unknown_material_sized_as_stainless_steel (log10 : jsnum -> jsnum)
    (pow : jsnum -> jsnum -> jsnum) (flowRate pressure length : Q)
    (material : string) :
  let result := calculatePipeSizing log10 pow flowRate pressure length material in
  let steel :=
    calculatePipeSizing log10 pow flowRate pressure length "stainless_steel" in
  (isInherited material = false ->
   exists roughness,
     PipeCalculation.roughness result = Number (Finite roughness)
     /\ In roughness [ 0.000005; 0.000015; 0.000045 ])
  /\ PipeCalculation.material result = material
  /\ (lookup PIPE_ROUGHNESS material = Missing ->
      result
      = PipeCalculation.mk
          (PipeCalculation.diameter steel) (PipeCalculation.length steel)
          material
          (PipeCalculation.pressureDrop steel) (PipeCalculation.velocity steel)
          (PipeCalculation.flowRate steel) (PipeCalculation.roughness steel))
  /\ (isInherited material = true ->
      PipeCalculation.roughness result = Member material
      /\ (log10 NaN = NaN -> PipeCalculation.pressureDrop result = NaN)).
Proof.
  cbv zeta.
  rewrite (calculatePipeSizing_is_pipeOf log10 pow flowRate pressure length material).
  rewrite (calculatePipeSizing_is_pipeOf log10 pow flowRate pressure length
             "stainless_steel").
  rewrite (calculatePipeSizing_diameter log10 log10 pow pow flowRate
             pressure pressure length length material "stainless_steel").
  cbn [pipeOf PipeCalculation.roughness PipeCalculation.material
       PipeCalculation.diameter PipeCalculation.length PipeCalculation.pressureDrop
       PipeCalculation.velocity PipeCalculation.flowRate].
  destruct (roughness_cases material) as [Hplain Hinherited].
  split; [exact Hplain |].
  split; [reflexivity |].
  split.
  - intro Hmissing. rewrite Hmissing. reflexivity.
  - intro Hinh. rewrite (Hinherited Hinh).
    split; [reflexivity |].
    apply calculatePressureDrop_Member.
Qed.

Lemma unknown_material_sized_as_stainless_steel_witness :
  calculatePipeSizing (fun _ => Finite 1) (fun _ _ => Finite 1) 40 50 100 "aluminium"
  = PipeCalculation.mk
      (PipeCalculation.diameter
         (calculatePipeSizing (fun _ => Finite 1) (fun _ _ => Finite 1)
                              40 50 100 "stainless_steel"))
      (PipeCalculation.length
         (calculatePipeSizing (fun _ => Finite 1) (fun _ _ => Finite 1)
                              40 50 100 "stainless_steel"))
      "aluminium"
      (PipeCalculation.pressureDrop
         (calculatePipeSizing (fun _ => Finite 1) (fun _ _ => Finite 1)
                              40 50 100 "stainless_steel"))
      (PipeCalculation.velocity
         (calculatePipeSizing (fun _ => Finite 1) (fun _ _ => Finite 1)
                              40 50 100 "stainless_steel"))
      (PipeCalculation.flowRate
         (calculatePipeSizing (fun _ => Finite 1) (fun _ _ => Finite 1)
                              40 50 100 "stainless_steel"))
      (PipeCalculation.roughness
         (calculatePipeSizing (fun _ => Finite 1) (fun _ _ => Finite 1)
                              40 50 100 "stainless_steel"))
  /\ PipeCalculation.roughness
       (calculatePipeSizing (fun _ => Finite 1) (fun _ _ => Finite 1)
                            40 50 100 "constructor")
     = Member "constructor".
Proof.
  split.
  - apply (unknown_material_sized_as_stainless_steel
             (fun _ => Finite 1) (fun _ _ => Finite 1) 40 50 100 "aluminium").
    reflexivity.
  - apply (unknown_material_sized_as_stainless_steel
             (fun _ => Finite 1) (fun _ _ => Finite 1) 40 50 100 "constructor").
    reflexivity.
Defined.

(** ** Pipe sizing: the result as a whole *)

(** X16.  The result of [calculatePipeSizing] is the pipe record of one
    standard size: every standard size below it runs faster than 25 ft/s,
    and the size itself either runs at 25 ft/s or less or is the largest
    one, 8 in.  The record carries the caller's flow rate, length and
    material, the velocity of that size and the roughness looked up for the
    material: the table's value, the default 0.000015 for a material it
    does not list, the inherited member for a material named like one. *)
Theorem calculatePipeSizing_selection (log10 : jsnum -> jsnum)
    (pow : jsnum -> jsnum -> jsnum)
    (flowRate pressure length : Q) (material : string) :
  exists diameter,
    In diameter standardSizes
    /\ calculatePipeSizing log10 pow flowRate pressure length material
       = PipeCalculation.mk diameter length material
           (calculatePressureDrop log10 pow flowRate diameter length
              (or_default (entry (lookup PIPE_ROUGHNESS material)) 0.000015)
              (velocityAt flowRate diameter))
           (velocityAt flowRate diameter) flowRate
           (or_default (entry (lookup PIPE_ROUGHNESS material)) 0.000015)
    /\ Forall (fun smaller => smaller < diameter -> 25 < velocityAt flowRate smaller)
              standardSizes
    /\ (velocityAt flowRate diameter <= 25 \/ diameter = 8)
    /\ match Map_get PIPE_ROUGHNESS material with
       | Some roughness =>
           or_default (entry (lookup PIPE_ROUGHNESS material)) 0.000015
           = Number (Finite roughness)
       | None =>
           or_default (entry (lookup PIPE_ROUGHNESS material)) 0.000015
           = if isInherited material then Member material
             else Number (Finite 0.000015)
       end.
Proof.
  destruct (calculatePipeSizing_first_fit_at_25 log10 pow
              flowRate pressure length material)
    as [Hin [Hv [_ [_ [Hsmaller Hfallback]]]]].
  exists (PipeCalculation.diameter
            (calculatePipeSizing log10 pow flowRate pressure length material)).
  split; [exact Hin |].
  split; [apply calculatePipeSizing_is_pipeOf |].
  split; [| split].
  - apply Forall_forall. intros smaller Hs Hlt. now apply Hsmaller.
  - destruct (Qlt_le_dec 25
                (PipeCalculation.velocity
                   (calculatePipeSizing log10 pow flowRate pressure length material)))
      as [Hfast | Hslow].
    + right. now apply Hfallback.
    + left. now rewrite <- Hv.
  - unfold lookup, PIPE_ROUGHNESS. cbn [Map_get].
    destruct (String.eqb "copper" material); [reflexivity |].
    destruct (String.eqb "stainless_steel" material); [reflexivity |].
    destruct (String.eqb "chrome_moly" material); [reflexivity |].
    destruct (isInherited material); reflexivity.
Qed.

(** ** Client notifications *)

Lemma getClientNotifications_added (notifications : Map (list Notification.t))
    (randomId now clientId : string) (notification : NotificationInput.t) :
  getClientNotifications
    (addNotification notifications randomId now clientId notification) clientId
  = firstn 50
      (newNotification randomId now clientId notification
       :: getClientNotifications notifications clientId).
Proof.
  unfold addNotification. unfold getClientNotifications at 1.
  now rewrite Map_get_set.
Qed.

(** X21.  After [addNotification] the client's list is the new notification
    followed by the earlier ones, cut to 50 entries, so that the oldest is
    dropped once the list is full.  The new notification has the given id
    and time stamp, the client's id, is unread, and takes every other field
    from the input.  The lists of other clients are untouched. *)
Theorem addNotification_newest_first (notifications : Map (list Notification.t))
    (randomId now clientId : string) (notification : NotificationInput.t) :
  let before := getClientNotifications notifications clientId in
  let after :=
    getClientNotifications
      (addNotification notifications randomId now clientId notification) clientId in
  after
  = Notification.mk randomId clientId
      (NotificationInput.projectId notification)
      (NotificationInput.type notification)
      (NotificationInput.title notification)
      (NotificationInput.message notification)
      now false
      (NotificationInput.actionRequired notification)
      (NotificationInput.actionUrl notification)
      (NotificationInput.priority notification)
    :: firstn 49 before
  /\ List.length after = Nat.min (S (List.length before)) 50
  /\ (List.length after <= 50)%nat
  /\ (forall other,
        other <> clientId ->
        getClientNotifications
          (addNotification notifications randomId now clientId notification) other
        = getClientNotifications notifications other).
Proof.
  cbv zeta.
  rewrite getClientNotifications_added.
  split; [| split; [| split]].
  - reflexivity.
  - rewrite length_firstn. cbn [List.length]. apply Nat.min_comm.
  - rewrite length_firstn. apply Nat.le_min_l.
  - intros other Hother. unfold addNotification.
    unfold getClientNotifications at 1 3.
    now rewrite Map_get_set_other.
Qed.

Lemma addNotification_newest_first_witness :
  getClientNotifications
    (addNotification [("c1", [])] "n1" "2024-01-01" "c2" welcome) "c1"
  = getClientNotifications [("c1", [])] "c1".
Proof.
  apply (addNotification_newest_first [("c1", [])] "n1" "2024-01-01" "c2" welcome).
  discriminate.
Defined.

Lemma find_id_None (notificationId : string) (l : list Notification.t) :
  find (fun n => String.eqb (Notification.id n) notificationId) l = None
  <-> ~ In notificationId (map Notification.id l).
Proof.
  induction l as [| n rest IH]; cbn [find map In].
  - split; [intros _ [] | reflexivity].
  - destruct (String.eqb_spec (Notification.id n) notificationId) as [Heq | Hneq].
    + split; [discriminate | intro Hnot; exfalso; apply Hnot; now left].
    + rewrite IH. split.
      * intros Hrest [Heq | Hin]; [congruence | contradiction].
      * intros Hnot Hin. apply Hnot. now right.
Qed.

Lemma markFirst_split (notificationId : string) (l : list Notification.t) :
  In notificationId (map Notification.id l) ->
  exists before n after,
    l = before ++ n :: after
    /\ Notification.id n = notificationId
    /\ ~ In notificationId (map Notification.id before)
    /\ markFirst notificationId l
       = before ++ Notification.set_read n true :: after.
Proof.
  induction l as [| n rest IH]; cbn [map In markFirst]; [intros [] |].
  intro Hin.
  destruct (String.eqb_spec (Notification.id n) notificationId) as [Heq | Hneq].
  - exists [], n, rest. repeat split; try assumption. intros [].
  - destruct Hin as [Heq | Hin]; [congruence |].
    destruct (IH Hin) as [before [m [after [-> [Hid [Hnot Hmark]]]]]].
    exists (n :: before), m, after.
    rewrite Hmark. repeat split; try assumption.
    cbn [map In]. intros [Heq | Hin']; [congruence | contradiction].
Qed.

(** X22.  [markNotificationAsRead] answers true exactly when the client has
    a notification with the given id.  It then marks the first such
    notification as read and leaves every other notification, its place in
    the list and all its other fields as they were; when it answers false
    nothing changes.  Other clients' lists are never touched. *)
Theorem markNotificationAsRead_marks_first (notifications : Map (list Notification.t))
    (clientId notificationId : string) :
  let before := getClientNotifications notifications clientId in
  let answer := fst (markNotificationAsRead notifications clientId notificationId) in
  let notifications' :=
    snd (markNotificationAsRead notifications clientId notificationId) in
  (answer = true <-> In notificationId (map Notification.id before))
  /\ (answer = false -> notifications' = notifications)
  /\ (answer = true ->
      exists front n back,
        before = front ++ n :: back
        /\ Notification.id n = notificationId
        /\ ~ In notificationId (map Notification.id front)
        /\ getClientNotifications notifications' clientId
           = front ++ Notification.set_read n true :: back)
  /\ (forall other,
        other <> clientId ->
        getClientNotifications notifications' other
        = getClientNotifications notifications other).
Proof.
  cbv zeta. unfold markNotificationAsRead.
  destruct (find _ (getClientNotifications notifications clientId))
    as [hit |] eqn:Hfind;
    cbn [fst snd].
  - assert (In notificationId
               (map Notification.id (getClientNotifications notifications clientId)))
      as Hin.
    { destruct (in_dec string_dec notificationId
                  (map Notification.id (getClientNotifications notifications clientId)))
        as [Hin | Hnot]; [exact Hin |].
      apply find_id_None in Hnot. congruence. }
    split; [split; [intros _; exact Hin | reflexivity] |].
    split; [discriminate |].
    split.
    + intros _.
      destruct (markFirst_split notificationId _ Hin)
        as [front [n [back [Hsplit [Hid [Hnot Hmark]]]]]].
      exists front, n, back.
      repeat split; try assumption.
      unfold getClientNotifications at 1. rewrite Map_get_set. exact Hmark.
    + intros other Hother. unfold getClientNotifications at 1 3.
      now rewrite Map_get_set_other.
  - apply find_id_None in Hfind.
    split; [split; [discriminate | intro Hin; contradiction] |].
    split; [reflexivity |].
    split; [discriminate |].
    reflexivity.
Qed.

Lemma markNotificationAsRead_marks_first_witness :
  snd (markNotificationAsRead
         (addNotification [] "n1" "2024-01-01" "c1" welcome) "c1" "n2")
  = addNotification [] "n1" "2024-01-01" "c1" welcome.
Proof.
  apply (markNotificationAsRead_marks_first
           (addNotification [] "n1" "2024-01-01" "c1" welcome) "c1" "n2").
  reflexivity.
Defined.

(** X23.  A notification that has just been added can be marked as read by
    its id: the call answers true, and the client's list then starts with
    that notification, read, followed by the earlier ones as they were. *)
Theorem added_notification_can_be_read (notifications : Map (list Notification.t))
    (randomId now clientId : string) (notification : NotificationInput.t) :
  let added := addNotification notifications randomId now clientId notification in
  let marked := markNotificationAsRead added clientId randomId in
  fst marked = true
  /\ exists newest,
       getClientNotifications added clientId
       = newest :: firstn 49 (getClientNotifications notifications clientId)
       /\ getClientNotifications (snd marked) clientId
          = Notification.set_read newest true
            :: firstn 49 (getClientNotifications notifications clientId)
       /\ Notification.id newest = randomId
       /\ Notification.read (Notification.set_read newest true) = true.
Proof.
  cbv zeta.
  pose proof (getClientNotifications_added notifications randomId now clientId
                notification) as Hafter.
  cbn [firstn] in Hafter.
  set (newest := newNotification randomId now clientId notification) in Hafter.
  assert (Notification.id newest = randomId) as Hid by reflexivity.
  unfold markNotificationAsRead. rewrite Hafter.
  cbn [find]. rewrite Hid, String.eqb_refl. cbn [fst snd].
  split; [reflexivity |].
  exists newest. split; [reflexivity |].
  split.
  - unfold getClientNotifications at 1. rewrite Map_get_set.
    cbn [markFirst]. now rewrite Hid, String.eqb_refl.
  - split; [exact Hid | reflexivity].
Qed.

Lemma markFirst_idempotent (notificationId : string) (l : list Notification.t) :
  markFirst notificationId (markFirst notificationId l) = markFirst notificationId l.
Proof.
  induction l as [| n rest IH]; cbn [markFirst]; [reflexivity |].
  destruct (String.eqb (Notification.id n) notificationId) eqn:E; cbn [markFirst].
  - cbn [Notification.set_read Notification.id]. now rewrite E.
  - now rewrite E, IH.
Qed.

Lemma markFirst_ids (notificationId : string) (l : list Notification.t) :
  map Notification.id (markFirst notificationId l) = map Notification.id l.
Proof.
  induction l as [| n rest IH]; cbn [markFirst map]; [reflexivity |].
  destruct (String.eqb (Notification.id n) notificationId); cbn [map].
  - reflexivity.
  - now rewrite IH.
Qed.

(** X24.  Marking the same notification a second time gives the same answer
    and changes nothing further. *)
Theorem markNotificationAsRead_idempotent (notifications : Map (list Notification.t))
    (clientId notificationId : string) :
  let once := markNotificationAsRead notifications clientId notificationId in
  let twice := markNotificationAsRead (snd once) clientId notificationId in
  fst twice = fst once /\ snd twice = snd once.
Proof.
  cbv zeta.
  destruct (find (fun n => String.eqb (Notification.id n) notificationId)
                 (getClientNotifications notifications clientId))
    as [hit |] eqn:Hfind.
  - assert (markNotificationAsRead notifications clientId notificationId
            = (true,
               Map_set notifications clientId
                 (markFirst notificationId
                    (getClientNotifications notifications clientId)))) as ->
      by (unfold markNotificationAsRead; now rewrite Hfind).
    cbn [fst snd]. unfold markNotificationAsRead.
    assert (getClientNotifications
              (Map_set notifications clientId
                 (markFirst notificationId
                    (getClientNotifications notifications clientId))) clientId
            = markFirst notificationId (getClientNotifications notifications clientId))
      as -> by (unfold getClientNotifications at 1; now rewrite Map_get_set).
    assert (find (fun n => String.eqb (Notification.id n) notificationId)
                 (markFirst notificationId
                    (getClientNotifications notifications clientId)) <> None) as Hsome.
    { intro Hnone. apply find_id_None in Hnone. rewrite markFirst_ids in Hnone.
      apply find_id_None in Hnone. congruence. }
    destruct (find _ (markFirst notificationId _)); [| congruence].
    cbn [fst snd]. split; [reflexivity |].
    now rewrite markFirst_idempotent, Map_set_set.
  - assert (markNotificationAsRead notifications clientId notificationId
            = (false, notifications)) as Honce
      by (unfold markNotificationAsRead; now rewrite Hfind).
    rewrite Honce. cbn [fst snd]. rewrite Honce. split; reflexivity.
Qed.

(** ** Base flow rates, in general *)

(** X25.  For each of the seven outlet gases and every room type that is not
    the name of a member of [Object.prototype], [getBaseFlowRate] is a rate
    between 2 and 15 SCFM: the catalog's entry when the catalog lists the
    room type under the gas, and 5 otherwise, also for the two gases
    (nitrogen, argon) that have no catalog at all.  For a room type such as
    ["toString"] and a gas with a catalog the result is the inherited
    member, not a number. *)
Theorem getBaseFlowRate_range (gasType : OutletGas.t) (roomType : string) :
  (isInherited roomType = false ->
   exists rate,
     getBaseFlowRate gasType roomType = Number (Finite rate)
     /\ 2 <= rate /\ rate <= 15
     /\ match catalogRate gasType roomType with
        | Some listed => rate = listed
        | None => rate = 5
        end)
  /\ (isInherited roomType = true ->
      match Map_get FLOW_RATES (OutletGas.name gasType) with
      | Some _ => getBaseFlowRate gasType roomType = Member roomType
      | None => getBaseFlowRate gasType roomType = Number (Finite 5)
      end).
Proof.
  unfold getBaseFlowRate, catalogRate.
  destruct (Map_get FLOW_RATES (OutletGas.name gasType)) as [flowRates |] eqn:Hgas.
  - pose proof (Map_get_Forall
                  (fun flowRates =>
                     Forall (fun entry => (fun v => 2 <= v /\ v <= 15) (snd entry))
                            flowRates)
                  _ _ _ FLOW_RATES_range Hgas) as Hrates.
    cbv beta in Hrates.
    assert (forall rate, Map_get flowRates roomType = Some rate ->
                         isInherited roomType = false) as Hown.
    { intros rate Hroom.
      assert (Forall (fun entry => isInherited (fst entry) = false) flowRates) as Hkeys.
      { clear - Hgas. unfold FLOW_RATES in Hgas. cbn [Map_get] in Hgas.
        repeat match type of Hgas with
               | (if ?b then _ else _) = _ =>
                   destruct b; [injection Hgas as <-; repeat constructor |]
               end.
        discriminate. }
      clear - Hroom Hkeys.
      induction flowRates as [| [k v] rest IH]; [discriminate |].
      inversion Hkeys as [| ? ? Hhead Htail]; subst.
      cbn [Map_get] in Hroom.
      destruct (String.eqb_spec k roomType) as [<- | _]; [exact Hhead | now apply IH]. }
    unfold lookup.
    destruct (Map_get flowRates roomType) as [listed |] eqn:Hroom.
    + pose proof (Map_get_Forall (fun v => 2 <= v /\ v <= 15) _ _ _ Hrates Hroom)
        as [Hlo Hhi].
      split.
      * intros _. exists listed. unfold or_default, entry, truthy.
        destruct (Qeq_bool listed 0) eqn:Hzero.
        -- apply Qeq_bool_iff in Hzero. lra.
        -- cbn [negb]. repeat split; assumption.
      * intro Hinh. rewrite (Hown listed eq_refl) in Hinh. discriminate.
    + destruct (isInherited roomType).
      * split; [discriminate | reflexivity].
      * split; [| discriminate].
        intros _. exists 5. repeat split; discriminate.
  - split.
    + intros _. exists 5. repeat split; discriminate.
    + reflexivity.
Qed.

Lemma getBaseFlowRate_range_witness :
  (exists rate,
     getBaseFlowRate OutletGas.argon "Dialysis Suite" = Number (Finite rate)
     /\ 2 <= rate /\ rate <= 15
     /\ match catalogRate OutletGas.argon "Dialysis Suite" with
        | Some listed => rate = listed
        | None => rate = 5
        end)
  /\ getBaseFlowRate OutletGas.vacuum "valueOf" = Member "valueOf".
Proof.
  split.
  - apply (getBaseFlowRate_range OutletGas.argon "Dialysis Suite"). reflexivity.
  - apply (getBaseFlowRate_range OutletGas.vacuum "valueOf"). reflexivity.
Defined.
